(** * react-native-ui-datepicker: [src/utils.ts]

    A shallow embedding of the calendar helpers of [src/utils.ts] and of the
    part of the [dayjs] date library and of the ECMAScript [Date] object
    they are written against, followed by the properties of the month grid
    ([getMonthDays], [generateDayObject]), of the year pager
    ([getYearRange]), of the weekday header ([getWeekdaysMin]) and of
    [areDatesOnSameDay].

    Modelling conventions.
    - A JavaScript number that holds an integer is a [Z]; the only
      non-integer number the code can meet, [NaN] out of [parseInt], is
      [None].
    - A [Date] is its time value, the milliseconds since 1970-01-01T00:00
      ([Z], unbounded); every date the model can build is a valid one, and
      a number of milliseconds is taken within the range of time values.
      Local time is UTC: no offset, no daylight saving.
    - The constructor [new Date(y, m, d)] reads the years 0 to 99 as 1900
      to 1999 ([ES.MakeFullYear]).  [dayjs] goes through it in
      [endOf('month')], hence in [daysInMonth()], which counts 28 days in
      February of the year 0, a leap year; the setter [date(n)] works on
      the [Date] itself and keeps its year.
    - A [Dayjs] object is the [Date] it wraps ([$d]); its cached fields
      [$y], [$M], [$D], [$W], ... are read from the time value, as
      [Dayjs.init] does.
    - [DateType] (declared in [src/types.ts]) is what [dayjs(...)] accepts:
      an absent value ([null], [undefined]), a number of milliseconds, or a
      date object ([Date], [Dayjs], or a non-empty string that parses to a
      valid date, represented by the date it parses to).
    - Arrays are lists; a cell-or-[null] is an [option]. *)

From Stdlib Require Import ZArith Lia Bool List String Ascii.
From Stdlib Require Import Decimal DecimalString DecimalZ DecimalPos.
From Stdlib Require Import Permutation.
From Stdlib Require DecimalFacts.
Import ListNotations.
Open Scope Z_scope.

(** ** ECMAScript time values (ECMA-262, "Time Values and Time Range") *)

Module ES.

Definition msPerDay : Z := 86400000.
Definition msPerHour : Z := 3600000.
Definition msPerMinute : Z := 60000.
Definition msPerSecond : Z := 1000.

Definition Day (t : Z) : Z := t / msPerDay.
Definition TimeWithinDay (t : Z) : Z := t mod msPerDay.

Definition InLeapYear (y : Z) : bool :=
  if negb (y mod 4 =? 0) then false
  else if negb (y mod 100 =? 0) then true
  else if negb (y mod 400 =? 0) then false
  else true.

Definition DaysInYear (y : Z) : Z := if InLeapYear y then 366 else 365.

Definition DayFromYear (y : Z) : Z :=
  365 * (y - 1970) + (y - 1969) / 4 - (y - 1901) / 100 + (y - 1601) / 400.

(** "The largest integer [y] such that [DayFromYear y <= day]": an estimate
    from the mean year length, corrected by at most one. *)
Definition YearFromDay (day : Z) : Z :=
  let y0 := 1970 + (400 * day) / 146097 in
  if day <? DayFromYear y0 then y0 - 1
  else if DayFromYear (y0 + 1) <=? day then y0 + 1
  else y0.

Definition YearFromTime (t : Z) : Z := YearFromDay (Day t).

Definition DayWithinYear (t : Z) : Z := Day t - DayFromYear (YearFromTime t).

(** Number of the first day of month [m] (0-based) within a year. *)
Definition DayFromMonth (m : Z) (leap : bool) : Z :=
  let l := if leap then 1 else 0 in
  match m with
  | 0 => 0
  | 1 => 31
  | 2 => 59 + l
  | 3 => 90 + l
  | 4 => 120 + l
  | 5 => 151 + l
  | 6 => 181 + l
  | 7 => 212 + l
  | 8 => 243 + l
  | 9 => 273 + l
  | 10 => 304 + l
  | _ => 334 + l
  end.

Definition MonthFromDayWithinYear (d : Z) (leap : bool) : Z :=
  if d <? DayFromMonth 1 leap then 0
  else if d <? DayFromMonth 2 leap then 1
  else if d <? DayFromMonth 3 leap then 2
  else if d <? DayFromMonth 4 leap then 3
  else if d <? DayFromMonth 5 leap then 4
  else if d <? DayFromMonth 6 leap then 5
  else if d <? DayFromMonth 7 leap then 6
  else if d <? DayFromMonth 8 leap then 7
  else if d <? DayFromMonth 9 leap then 8
  else if d <? DayFromMonth 10 leap then 9
  else if d <? DayFromMonth 11 leap then 10
  else 11.

Definition MonthFromTime (t : Z) : Z :=
  MonthFromDayWithinYear (DayWithinYear t) (InLeapYear (YearFromTime t)).

Definition DateFromTime (t : Z) : Z :=
  DayWithinYear t
  - DayFromMonth (MonthFromTime t) (InLeapYear (YearFromTime t)) + 1.

Definition WeekDay (t : Z) : Z := (Day t + 4) mod 7.

Definition HourFromTime (t : Z) : Z := (t / msPerHour) mod 24.
Definition MinFromTime (t : Z) : Z := (t / msPerMinute) mod 60.
Definition SecFromTime (t : Z) : Z := (t / msPerSecond) mod 60.
Definition msFromTime (t : Z) : Z := t mod msPerSecond.

Definition MakeTime (hour min sec ms : Z) : Z :=
  hour * msPerHour + min * msPerMinute + sec * msPerSecond + ms.

(** [MakeDay]: the month may lie outside 0..11 and the date outside the
    month; both carry over. *)
Definition MakeDay (year month date : Z) : Z :=
  let ym := year + month / 12 in
  let mn := month mod 12 in
  DayFromYear ym + DayFromMonth mn (InLeapYear ym) + date - 1.

Definition MakeDate (day time : Z) : Z := day * msPerDay + time.

(** The calendar table: days of month [m] (0-based) of year [y]. *)
Definition DaysInMonth (y m : Z) : Z :=
  match m with
  | 1 => if InLeapYear y then 29 else 28
  | 3 | 5 | 8 | 10 => 30
  | _ => 31
  end.

(** [MakeFullYear]: the year the constructor [new Date(y, m, d)] reads in
    its first argument; the years 0 to 99 are read as 1900 to 1999. *)
Definition MakeFullYear (year : Z) : Z :=
  if (0 <=? year) && (year <=? 99) then 1900 + year else year.

(** [Date.prototype.setDate], [setMonth], [setHours(h, m, s, ms)] and
    [new Date(y, m, d)], on time values.  The setters keep the year of
    the time value; only the constructor goes through [MakeFullYear]. *)
Definition setDate (t dt : Z) : Z :=
  MakeDate (MakeDay (YearFromTime t) (MonthFromTime t) dt) (TimeWithinDay t).

Definition setMonth (t m : Z) : Z :=
  MakeDate (MakeDay (YearFromTime t) m (DateFromTime t)) (TimeWithinDay t).

Definition setHours (t h m s ms : Z) : Z :=
  MakeDate (Day t) (MakeTime h m s ms).

Definition newDate (y m d : Z) : Z :=
  MakeDate (MakeDay (MakeFullYear y) m d) 0.

End ES.

(** ** JavaScript strings and numbers *)

Module JS.

Open Scope string_scope.

(** [String(n)] and [n.toString()] for an integer [n]. *)
Definition toString (n : Z) : string := NilZero.string_of_int (Z.to_int n).

Fixpoint zeros (n : nat) : string :=
  match n with
  | O => ""
  | S k => String "0" (zeros k)
  end.

(** The longest prefix of decimal digits of a string, and whether a
    character starts it. *)
Fixpoint digits_prefix (s : string) : uint :=
  match s with
  | EmptyString => Nil
  | String c r =>
      match c with
      | "0" => D0 (digits_prefix r)
      | "1" => D1 (digits_prefix r)
      | "2" => D2 (digits_prefix r)
      | "3" => D3 (digits_prefix r)
      | "4" => D4 (digits_prefix r)
      | "5" => D5 (digits_prefix r)
      | "6" => D6 (digits_prefix r)
      | "7" => D7 (digits_prefix r)
      | "8" => D8 (digits_prefix r)
      | "9" => D9 (digits_prefix r)
      | _ => Nil
      end%char
  end.

Definition isWhiteSpace (c : ascii) : bool :=
  (Ascii.eqb c " " || Ascii.eqb c "009" || Ascii.eqb c "010"
   || Ascii.eqb c "011" || Ascii.eqb c "012" || Ascii.eqb c "013")%char.

Fixpoint trimStart (s : string) : string :=
  match s with
  | EmptyString => EmptyString
  | String c r => if isWhiteSpace c then trimStart r else s
  end.

Definition digits_value (s : string) : option Z :=
  match digits_prefix s with
  | Nil => None
  | d => Some (Z.of_uint d)
  end.

(** [parseInt(s, 10)]: leading white space is skipped, one sign is read,
    then the longest run of decimal digits; [None] is [NaN] (no digit).
    What follows the digits is ignored. *)
Definition parseInt (s : string) : option Z :=
  match trimStart s with
  | String c r =>
      if Ascii.eqb c "-" then option_map Z.opp (digits_value r)
      else if Ascii.eqb c "+" then digits_value r
      else digits_value (String c r)
  | EmptyString => None
  end.

(** [Array.from({ length: n }, (_, i) => f(i))]: a length that is not
    positive gives the empty array. *)
Definition Array_from {A : Type} (n : Z) (f : Z -> A) : list A :=
  map (fun i => f (Z.of_nat i)) (seq 0 (Z.to_nat n)).

(** [Array(n).fill(v)] for an array length [n]. *)
Definition Array_fill {A : Type} (n : Z) (v : A) : list A :=
  repeat v (Z.to_nat n).

(** [a.slice(i, j)] for integers [0 <= i] and [0 <= j]. *)
Definition slice {A : Type} (a : list A) (i j : Z) : list A :=
  firstn (Z.to_nat j - Z.to_nat i) (skipn (Z.to_nat i) a).

End JS.

(** ** The part of [dayjs] that [utils.ts] calls *)

Module Dayjs.

Open Scope string_scope.

(** A [Dayjs] object: the time value of the [Date] it wraps. *)
Record t : Type := wrap { valueOf : Z }.

(** The getters [year()], [month()] (0-based), [date()], [day()] (0 is
    Sunday), [hour()], [minute()]: the fields [$y], [$M], [$D], [$W], [$H],
    [$m] that [init] reads from [$d]. *)
Definition year (d : t) : Z := ES.YearFromTime (valueOf d).
Definition month (d : t) : Z := ES.MonthFromTime (valueOf d).
Definition date (d : t) : Z := ES.DateFromTime (valueOf d).
Definition day (d : t) : Z := ES.WeekDay (valueOf d).
Definition hour (d : t) : Z := ES.HourFromTime (valueOf d).
Definition minute (d : t) : Z := ES.MinFromTime (valueOf d).

(** The setter [d.date(n)]: [$d.setDate(n)] on a clone. *)
Definition set_date (d : t) (n : Z) : t := wrap (ES.setDate (valueOf d) n).

(** [d.endOf('day')] and [d.endOf('month')]; the latter is
    [new Date($y, $M + 1, 0)] taken to the end of its day, so for a date
    of the years 0 to 99 it is the end of a month of 1900 to 1999. *)
Definition endOf_day (d : t) : t :=
  wrap (ES.setHours (valueOf d) 23 59 59 999).

Definition endOf_month (d : t) : t :=
  endOf_day (wrap (ES.newDate (year d) (month d + 1) 0)).

(** [d.daysInMonth()] is [d.endOf('month').$D]: the days of the month,
    counted in the year [endOf] lands in. *)
Definition daysInMonth (d : t) : Z := date (endOf_month d).

(** [d.set('month', m)]: go to day 1, set the month, then come back to
    the day of [d], or to the last day of the new month when it is
    shorter. *)
Definition set_month (d : t) (m : Z) : t :=
  let first := wrap (ES.setMonth (valueOf (set_date d 1)) m) in
  set_date first (Z.min (date d) (daysInMonth first)).

(** [d.add(n, 'month')] is [d.set('month', $M + n)]. *)
Definition add_month (n : Z) (d : t) : t := set_month d (month d + n).

(** [padStart] of dayjs' utilities ([Utils.s(n, length, '0')]): the text
    [String(n)], with enough copies of the pad before it to reach the
    length; a text that is long enough is left alone.  A sign is part of
    the text, so the pad comes before it: -5 padded to 4 is ["00-5"]. *)
Definition padStart (n : Z) (length : nat) : string :=
  let s := JS.toString n in
  if (length <=? String.length s)%nat then s
  else JS.zeros (length - String.length s) ++ s.

(** Format strings, as [format] cuts them: the tokens that the formats of
    [utils.ts] are made of; any other character stands for itself. *)
Inductive token : Type :=
  | YYYY | MM | DD | HH | mm
  | Lit (c : ascii).

Fixpoint tokenize (fmt : string) : list token :=
  match fmt with
  | String "Y" (String "Y" (String "Y" (String "Y" r))) => YYYY :: tokenize r
  | String "M" (String "M" r) => MM :: tokenize r
  | String "D" (String "D" r) => DD :: tokenize r
  | String "H" (String "H" r) => HH :: tokenize r
  | String "m" (String "m" r) => mm :: tokenize r
  | String c r => Lit c :: tokenize r
  | EmptyString => []
  end.

(** What [format] puts for a token: [YYYY] is [Utils.s(this.$y, 4, '0')],
    [MM] is [Utils.s($M + 1, 2, '0')], [DD] is [Utils.s(this.$D, 2, '0')],
    and likewise the hour and the minute. *)
Definition render (d : t) (k : token) : string :=
  match k with
  | YYYY => padStart (year d) 4
  | MM => padStart (month d + 1) 2
  | DD => padStart (date d) 2
  | HH => padStart (hour d) 2
  | mm => padStart (minute d) 2
  | Lit c => String c EmptyString
  end.

(** [d.format(fmt)] *)
Definition format (d : t) (fmt : string) : string :=
  String.concat "" (map (render d) (tokenize fmt)).

(** [a < b] and [a > b] on objects compare [valueOf()]. *)
Definition lt (a b : t) : bool := (valueOf a <? valueOf b)%Z.
Definition gt (a b : t) : bool := (valueOf a >? valueOf b)%Z.

End Dayjs.

(** ** [src/utils.ts] *)

Module Utils.

Open Scope string_scope.

(** The locale lists behind [dayjs.months()], [dayjs.weekdays()],
    [dayjs.weekdaysShort()] and [dayjs.weekdaysMin()]; weekday lists start
    on Sunday. *)
Record Locale : Type := {
  months : list string;
  weekdays : list string;
  weekdaysShort : list string;
  weekdaysMin : list string
}.

(** [DateType] of [src/types.ts], as the header of this file describes
    it. *)
Inductive DateType : Type :=
  | DT_absent
  | DT_number (n : Z)
  | DT_date (d : Dayjs.t).

(** JavaScript truthiness, as [!a] and [if (minDate)] test it: [null],
    [undefined] and the number [0] are falsy, an object is truthy. *)
Definition truthy (x : DateType) : bool :=
  match x with
  | DT_absent => false
  | DT_number n => negb (n =? 0)%Z
  | DT_date _ => true
  end.

(** [dayjs(x)] for a value that carries a date. *)
Definition dayjs (x : DateType) : option Dayjs.t :=
  match x with
  | DT_absent => None
  | DT_number n => Some (Dayjs.wrap n)
  | DT_date d => Some d
  end.

(** [IDayObject] of [src/types.ts]: the fields [generateDayObject]
    fills. *)
Record IDayObject : Type := {
  text : string;
  day : Z;
  date : string;
  disabled : bool;
  isCurrentMonth : bool
}.

Definition CALENDAR_FORMAT : string := "YYYY-MM-DD HH:mm".
Definition DATE_FORMAT : string := "YYYY-MM-DD".
Definition YEAR_PAGE_SIZE : Z := 10.

Definition getMonths (l : Locale) : list string := months l.

Definition getMonthName (l : Locale) (month : nat) : option string :=
  nth_error (months l) month.

Definition getWeekdays (l : Locale) : list string := weekdays l.

Definition getWeekdaysShort (l : Locale) : list string := weekdaysShort l.

Definition getWeekdaysMin (l : Locale) (firstDayOfWeek : Z) : list string :=
  let days := weekdaysMin l in
  if (firstDayOfWeek >? 0)%Z then
    JS.slice days firstDayOfWeek (Z.of_nat (List.length days))
    ++ JS.slice days 0 firstDayOfWeek
  else days.

Definition getFormated (d : Dayjs.t) : string :=
  Dayjs.format d CALENDAR_FORMAT.

Definition getDateMonth (d : Dayjs.t) : Z := Dayjs.month d.

Definition getDateYear (d : Dayjs.t) : Z := Dayjs.year d.

Definition areDatesOnSameDay (a b : DateType) : bool :=
  if negb (truthy a) || negb (truthy b) then false
  else
    match dayjs a, dayjs b with
    | Some da, Some db =>
        let date_a := Dayjs.format da DATE_FORMAT in
        let date_b := Dayjs.format db DATE_FORMAT in
        String.eqb date_a date_b
    | _, _ => false
    end.

Definition getFormatedDate (d : Dayjs.t) (fmt : string) : string :=
  Dayjs.format d fmt.

(** [getDate(date)] is [dayjs(date, CALENDAR_FORMAT)]; the format only
    matters to a string. *)
Definition getDate (x : DateType) : option Dayjs.t := dayjs x.

(** [getYearRange(_year, maxDate, minDate)] for two dates.  A [NaN] out of
    [parseInt] would make the length [NaN], hence the array empty. *)
Definition getYearRange (_year : Z) (maxDate minDate : Dayjs.t) : list Z :=
  match JS.parseInt (Dayjs.format maxDate "YYYY"),
        JS.parseInt (Dayjs.format minDate "YYYY") with
  | Some endYear, Some startYear =>
      let startYear := if (startYear <? 0)%Z then 0%Z else startYear in
      JS.Array_from
        (if (endYear - startYear >? 12)%Z then YEAR_PAGE_SIZE
         else (endYear - startYear + 1)%Z)
        (fun i => (startYear + i)%Z)
  | _, _ => []
  end.

(** The object [getParsedDate] returns. *)
Record ParsedDate : Type := {
  year : Z;
  month : Z;
  hour : Z;
  minute : Z
}.

Definition getParsedDate (d : Dayjs.t) : ParsedDate :=
  {| year := Dayjs.year d;
     month := Dayjs.month d;
     hour := Dayjs.hour d;
     minute := Dayjs.minute d |}.

Definition generateDayObject (day : Z) (date : Dayjs.t)
    (minDate maxDate : DateType) (isCurrentMonth : bool) : IDayObject :=
  let disabled := false in
  let disabled :=
    if truthy minDate then
      match getDate minDate with
      | Some m => Dayjs.lt date m
      | None => disabled
      end
    else disabled in
  let disabled :=
    if truthy maxDate && negb disabled then
      match getDate maxDate with
      | Some m => Dayjs.gt date m
      | None => disabled
      end
    else disabled in
  {| text := JS.toString day;
     day := day;
     date := getFormatedDate date DATE_FORMAT;
     disabled := disabled;
     isCurrentMonth := isCurrentMonth |}.

(** [getMonthDays] for a reference date [datetime] (what [getDate] makes of
    the first argument). *)
Definition getMonthDays (datetime : Dayjs.t) (displayFullDays : bool)
    (minimumDate maximumDate : DateType) (firstDayOfWeek : Z)
    : list (option IDayObject) :=
  let date := datetime in
  let daysInMonth := Dayjs.daysInMonth date in
  let prevMonthDays := Dayjs.daysInMonth (Dayjs.add_month (-1) date) in
  let firstDay := Dayjs.set_date date (1 - firstDayOfWeek) in
  let dayOfMonth := Z.rem (Dayjs.day firstDay) 7 in
  let prevDays :=
    if displayFullDays then
      JS.Array_from dayOfMonth (fun i =>
        let day := (i + (prevMonthDays - dayOfMonth + 1))%Z in
        let thisDay := Dayjs.set_date (Dayjs.add_month (-1) date) day in
        Some (generateDayObject day thisDay minimumDate maximumDate false))
    else JS.Array_fill dayOfMonth None in
  let monthDaysOffset := (dayOfMonth + daysInMonth)%Z in
  let nextMonthDays :=
    if displayFullDays then
      if (monthDaysOffset >? 35)%Z then (42 - monthDaysOffset)%Z
      else (35 - monthDaysOffset)%Z
    else 0%Z in
  let currentDays :=
    JS.Array_from daysInMonth (fun i =>
      let day := (i + 1)%Z in
      let thisDay := Dayjs.set_date date day in
      Some (generateDayObject day thisDay minimumDate maximumDate true)) in
  let nextDays :=
    JS.Array_from nextMonthDays (fun i =>
      let day := (i + 1)%Z in
      let thisDay := Dayjs.set_date (Dayjs.add_month 1 date) day in
      Some (generateDayObject day thisDay minimumDate maximumDate false)) in
  prevDays ++ currentDays ++ nextDays.

End Utils.

(** ** Test data: dates by their calendar fields, and a locale *)

Definition civil (y m d hh mi : Z) : Dayjs.t :=
  Dayjs.wrap (ES.MakeDate (ES.MakeDay y (m - 1) d) (ES.MakeTime hh mi 0 0)).

Definition initials : Utils.Locale :=
  {| Utils.months := [];
     Utils.weekdays := [];
     Utils.weekdaysShort := [];
     Utils.weekdaysMin := ["S"; "M"; "T"; "W"; "T"; "F"; "S"]%string |}.

Definition en : Utils.Locale :=
  {| Utils.months :=
       ["January"; "February"; "March"; "April"; "May"; "June"; "July";
        "August"; "September"; "October"; "November"; "December"]%string;
     Utils.weekdays :=
       ["Sunday"; "Monday"; "Tuesday"; "Wednesday"; "Thursday"; "Friday";
        "Saturday"]%string;
     Utils.weekdaysShort :=
       ["Sun"; "Mon"; "Tue"; "Wed"; "Thu"; "Fri"; "Sat"]%string;
     Utils.weekdaysMin :=
       ["Su"; "Mo"; "Tu"; "We"; "Th"; "Fr"; "Sa"]%string |}.

(** ** The vocabulary of the specification

    The specification speaks of the month before and after the reference
    month, of the days of a month, of the lead offset and of the instant
    of a bound; these are its notions, stated on calendar fields. *)

(** The date of day [d] of month [m] (0-based) of year [y], at [time]
    milliseconds into the day. *)
Definition on_day (y m d time : Z) : Dayjs.t :=
  Dayjs.wrap (ES.MakeDate (ES.MakeDay y m d) time).

Definition time_of_day (d : Dayjs.t) : Z := ES.TimeWithinDay (Dayjs.valueOf d).

Definition prev_month (ym : Z * Z) : Z * Z :=
  let (y, m) := ym in if m =? 0 then (y - 1, 11) else (y, m - 1).

Definition next_month (ym : Z * Z) : Z * Z :=
  let (y, m) := ym in if m =? 11 then (y + 1, 0) else (y, m + 1).

Definition year_month (d : Dayjs.t) : Z * Z := (Dayjs.year d, Dayjs.month d).

(** The month [n] months away from a month. *)
Definition shift_month (ym : Z * Z) (n : Z) : Z * Z :=
  (fst ym + (snd ym + n) / 12, (snd ym + n) mod 12).

(** [n] consecutive days (or years) from [a] on, ascending. *)
Definition consecutive (a : Z) (n : nat) : list Z :=
  map (fun i => a + Z.of_nat i) (seq 0 n).

(** The lead offset of step 2 of the grid algorithm: [dayOfMonth] in
    [getMonthDays]. *)
Definition leadOffset (datetime : Dayjs.t) (firstDayOfWeek : Z) : Z :=
  Z.rem (Dayjs.day (Dayjs.set_date datetime (1 - firstDayOfWeek))) 7.

(** The text of a calendar date in the format ["YYYY-MM-DD"]. *)
Definition date_text (ym : Z * Z) (d : Z) : string :=
  (Dayjs.padStart (fst ym) 4 ++ "-" ++ Dayjs.padStart (snd ym + 1) 2
   ++ "-" ++ Dayjs.padStart d 2)%string.

(** Reading a number back from its padded text: leading zeros are
    skipped, then a sign and digits are read. *)
Fixpoint read_number (s : string) : option Z :=
  match s with
  | EmptyString => None
  | String c r =>
      if Ascii.eqb c "-" then option_map Z.opp (JS.digits_value r)
      else if Ascii.eqb c "0" then
        match r with
        | EmptyString => Some 0
        | _ => read_number r
        end
      else JS.digits_value s
  end.

(** Reading a date text back: its last six characters are [-MM-DD], what
    comes before is the year.  The result is the year, the month (0-based)
    and the day of the month. *)
Fixpoint split_date_text (s : string) : option (string * string * string) :=
  match s with
  | EmptyString => None
  | String c r =>
      match r with
      | String m1 (String m2 (String c' (String d1 (String d2 EmptyString)))) =>
          if Ascii.eqb c "-" && Ascii.eqb c' "-" then
            Some (EmptyString, String m1 (String m2 EmptyString),
                  String d1 (String d2 EmptyString))
          else None
      | _ =>
          match split_date_text r with
          | Some (y, m, d) => Some (String c y, m, d)
          | None => None
          end
      end
  end.

Definition read_date_text (s : string) : option (Z * Z * Z) :=
  match split_date_text s with
  | Some (y, m, d) =>
      match read_number y, read_number m, read_number d with
      | Some y, Some m, Some d => Some (y, m - 1, d)
      | _, _, _ => None
      end
  | None => None
  end.

(** The year [parseInt] reads in the ["YYYY"] text of a year. *)
Definition year_read (y : Z) : Z := if (-100 <? y) && (y <? 0) then 0 else y.

(** The instant of a bound that is in force: the bound is truthy. *)
Definition instant (bound : Utils.DateType) : option Z :=
  if Utils.truthy bound then option_map Dayjs.valueOf (Utils.dayjs bound)
  else None.

Definition before_bound (t : Z) (bound : Utils.DateType) : bool :=
  match instant bound with
  | Some b => t <? b
  | None => false
  end.

Definition after_bound (t : Z) (bound : Utils.DateType) : bool :=
  match instant bound with
  | Some b => b <? t
  | None => false
  end.

(** The cell of day [d] of the month [ym], at [time] into the day. *)
Definition cell (time : Z) (minimumDate maximumDate : Utils.DateType)
    (ym : Z * Z) (isCurrentMonth : bool) (d : Z) : option Utils.IDayObject :=
  let t := Dayjs.valueOf (on_day (fst ym) (snd ym) d time) in
  Some {| Utils.text := JS.toString d;
          Utils.day := d;
          Utils.date := date_text ym d;
          Utils.disabled :=
            before_bound t minimumDate || after_bound t maximumDate;
          Utils.isCurrentMonth := isCurrentMonth |}.

(** The dates of the cells of a grid, in order, placeholders left out. *)
Definition cell_dates (g : list (option Utils.IDayObject)) : list string :=
  flat_map (fun o => match o with
                     | Some c => [Utils.date c]
                     | None => []
                     end) g.

(** The number of cells of a full grid. *)
Definition grid_size (occupied : Z) : Z := if occupied <=? 35 then 35 else 42.

(** The three regions of a grid, by position: [lead] positions before the
    month, [days] positions of the month, the rest after it. *)
Inductive region : Type := Leading | Current | Trailing.

Definition region_of (lead days i : nat) : region :=
  if (i <? lead)%nat then Leading
  else if (i <? lead + days)%nat then Current
  else Trailing.

Definition region_month (ym : Z * Z) (r : region) : Z * Z :=
  match r with
  | Leading => prev_month ym
  | Current => ym
  | Trailing => next_month ym
  end.

Definition region_current (r : region) : bool :=
  match r with
  | Current => true
  | _ => false
  end.

Definition days_in (ym : Z * Z) : Z := ES.DaysInMonth (fst ym) (snd ym).

(** The days [daysInMonth()] counts in a month: those of the month of the
    same name in the year the [Date] constructor reads. *)
Definition month_length (ym : Z * Z) : Z :=
  ES.DaysInMonth (ES.MakeFullYear (fst ym)) (snd ym).

(** How far the days of a region of the grid of the month [ym] are from
    where consecutive days would be: the days [daysInMonth()] counts too
    few in the month before move the leading days back, those it counts
    too few in the month itself bring the trailing days forward. *)
Definition region_shift (ym : Z * Z) (r : region) : Z :=
  match r with
  | Leading => month_length (prev_month ym) - days_in (prev_month ym)
  | Current => 0
  | Trailing => days_in ym - month_length ym
  end.

(** Rotating a list to the left, one position at a time. *)
Definition rotate1 {A : Type} (l : list A) : list A :=
  match l with
  | [] => []
  | x :: r => r ++ [x]
  end.

Definition rotate_left {A : Type} (n : nat) (l : list A) : list A :=
  Nat.iter n rotate1 l.

(** * Properties *)

(** ** Time values *)

Section TimeValues.

Import ES.

Ltac euclid := Z.div_mod_to_equations; lia.

Lemma DayFromYear_succ (y : Z) :
  DayFromYear (y + 1) = DayFromYear y + DaysInYear y.
Proof.
  unfold DayFromYear, DaysInYear, InLeapYear.
  repeat match goal with
         | |- context [?a =? ?b] => destruct (Z.eqb_spec a b)
         end; cbn [negb]; euclid.
Qed.

Lemma DayFromYear_lt (a b : Z) : a < b -> DayFromYear a < DayFromYear b.
Proof. unfold DayFromYear. intros H. euclid. Qed.

(** [YearFromDay] finds the year whose days contain [day] ... *)
Lemma YearFromDay_spec (day : Z) :
  DayFromYear (YearFromDay day) <= day < DayFromYear (YearFromDay day + 1).
Proof.
  unfold YearFromDay.
  set (y0 := 1970 + 400 * day / 146097).
  assert (H1 : DayFromYear (y0 - 1) <= day)
    by (unfold DayFromYear, y0; euclid).
  assert (H2 : day < DayFromYear (y0 + 2))
    by (unfold DayFromYear, y0; euclid).
  destruct (Z.ltb_spec day (DayFromYear y0)).
  - replace (y0 - 1 + 1) with y0 by lia. lia.
  - destruct (Z.leb_spec (DayFromYear (y0 + 1)) day).
    + replace (y0 + 1 + 1) with (y0 + 2) by lia. lia.
    + lia.
Qed.

(** ... and that year is the only one. *)
Lemma YearFromDay_unique (day y : Z) :
  DayFromYear y <= day < DayFromYear (y + 1) -> YearFromDay day = y.
Proof.
  intros Hy. pose proof (YearFromDay_spec day) as Hs.
  destruct (Z.lt_trichotomy (YearFromDay day) y) as [Hlt | [Heq | Hgt]].
  - assert (YearFromDay day + 1 <= y) as Hle by lia.
    apply Z.le_lteq in Hle. destruct Hle as [Hle | Hle].
    + apply DayFromYear_lt in Hle. lia.
    + rewrite Hle in Hs. lia.
  - exact Heq.
  - assert (y + 1 <= YearFromDay day) as Hle by lia.
    apply Z.le_lteq in Hle. destruct Hle as [Hle | Hle].
    + apply DayFromYear_lt in Hle. lia.
    + rewrite <- Hle in Hs. lia.
Qed.

Lemma Day_MakeDate (day time : Z) :
  0 <= time < msPerDay -> Day (MakeDate day time) = day.
Proof. unfold Day, MakeDate, msPerDay. intros H. euclid. Qed.

Lemma TimeWithinDay_MakeDate (day time : Z) :
  0 <= time < msPerDay -> TimeWithinDay (MakeDate day time) = time.
Proof. unfold TimeWithinDay, MakeDate, msPerDay. intros H. euclid. Qed.

Lemma TimeWithinDay_range (t : Z) : 0 <= TimeWithinDay t < msPerDay.
Proof. unfold TimeWithinDay, msPerDay. euclid. Qed.

Lemma MakeDate_Day_TimeWithinDay (t : Z) :
  MakeDate (Day t) (TimeWithinDay t) = t.
Proof. unfold MakeDate, Day, TimeWithinDay, msPerDay. euclid. Qed.

Lemma DaysInMonth_range (y m : Z) : 28 <= DaysInMonth y m <= 31.
Proof.
  unfold DaysInMonth.
  destruct m as [ | p | p ]; try lia.
  do 4 (try destruct p as [ p | p | ]); try lia; destruct (InLeapYear y); lia.
Qed.

Lemma DayFromMonth_succ (y m : Z) :
  0 <= m <= 10 ->
  DayFromMonth (m + 1) (InLeapYear y)
  = DayFromMonth m (InLeapYear y) + DaysInMonth y m.
Proof.
  intros H.
  assert (m = 0 \/ m = 1 \/ m = 2 \/ m = 3 \/ m = 4 \/ m = 5 \/ m = 6
          \/ m = 7 \/ m = 8 \/ m = 9 \/ m = 10) as Hm by lia.
  repeat (destruct Hm as [-> | Hm]); try subst m;
    cbn; destruct (InLeapYear y); reflexivity.
Qed.

Lemma DayFromMonth_last (y : Z) :
  DayFromMonth 11 (InLeapYear y) + DaysInMonth y 11 = DaysInYear y.
Proof. unfold DaysInYear. cbn. destruct (InLeapYear y); reflexivity. Qed.

Lemma DayFromMonth_bounds (y m : Z) :
  0 <= m <= 11 ->
  0 <= DayFromMonth m (InLeapYear y)
  /\ DayFromMonth m (InLeapYear y) + DaysInMonth y m <= DaysInYear y.
Proof.
  intros H.
  assert (m = 0 \/ m = 1 \/ m = 2 \/ m = 3 \/ m = 4 \/ m = 5 \/ m = 6
          \/ m = 7 \/ m = 8 \/ m = 9 \/ m = 10 \/ m = 11) as Hm by lia.
  unfold DaysInYear.
  repeat (destruct Hm as [-> | Hm]); try subst m;
    cbn; destruct (InLeapYear y); lia.
Qed.

Lemma MonthFromDayWithinYear_inv (y m d : Z) :
  0 <= m <= 11 -> 1 <= d <= DaysInMonth y m ->
  MonthFromDayWithinYear (DayFromMonth m (InLeapYear y) + d - 1)
    (InLeapYear y) = m.
Proof.
  intros Hm Hd.
  assert (m = 0 \/ m = 1 \/ m = 2 \/ m = 3 \/ m = 4 \/ m = 5 \/ m = 6
          \/ m = 7 \/ m = 8 \/ m = 9 \/ m = 10 \/ m = 11) as Hc by lia.
  repeat (destruct Hc as [-> | Hc]); try subst m;
    cbv [MonthFromDayWithinYear DayFromMonth DaysInMonth] in Hd |- *;
    destruct (InLeapYear y);
    repeat match goal with
           | |- context [?a <? ?b] => destruct (Z.ltb_spec a b); try lia
           end; reflexivity.
Qed.

(** Every day of a year falls in one of its twelve months. *)
Lemma MonthFromDayWithinYear_range (y d : Z) :
  0 <= d < DaysInYear y ->
  let m := MonthFromDayWithinYear d (InLeapYear y) in
  0 <= m <= 11
  /\ 1 <= d - DayFromMonth m (InLeapYear y) + 1 <= DaysInMonth y m.
Proof.
  intros Hd.
  cbv [DaysInYear MonthFromDayWithinYear DayFromMonth DaysInMonth] in Hd |- *.
  destruct (InLeapYear y);
    repeat match goal with
           | |- context [?a <? ?b] => destruct (Z.ltb_spec a b)
           end; lia.
Qed.

(** The calendar fields of a time value built by [MakeDay] from a month
    and a date of that month are the fields it was built from. *)
Lemma YearFromDay_MakeDay (y m d : Z) :
  0 <= m <= 11 -> 1 <= d <= DaysInMonth y m ->
  YearFromDay (MakeDay y m d) = y.
Proof.
  intros Hm Hd. apply YearFromDay_unique.
  unfold MakeDay.
  replace (m / 12) with 0 by euclid. replace (m mod 12) with m by euclid.
  rewrite Z.add_0_r, DayFromYear_succ.
  pose proof (DayFromMonth_bounds y m Hm). lia.
Qed.

Lemma MakeDay_in_range (y m d : Z) :
  0 <= m <= 11 ->
  MakeDay y m d = DayFromYear y + DayFromMonth m (InLeapYear y) + d - 1.
Proof.
  intros Hm. unfold MakeDay.
  replace (m / 12) with 0 by euclid. replace (m mod 12) with m by euclid.
  now rewrite Z.add_0_r.
Qed.

Section Fields.

Variables (y m d time : Z).
Hypothesis Hm : 0 <= m <= 11.
Hypothesis Hd : 1 <= d <= DaysInMonth y m.
Hypothesis Htime : 0 <= time < msPerDay.

Let t := MakeDate (MakeDay y m d) time.

Lemma YearFromTime_MakeDate : YearFromTime t = y.
Proof.
  unfold YearFromTime, t. rewrite Day_MakeDate by exact Htime.
  now apply YearFromDay_MakeDay.
Qed.

Lemma DayWithinYear_MakeDate :
  DayWithinYear t = DayFromMonth m (InLeapYear y) + d - 1.
Proof.
  unfold DayWithinYear. rewrite YearFromTime_MakeDate.
  unfold t. rewrite Day_MakeDate by exact Htime.
  rewrite MakeDay_in_range by exact Hm. lia.
Qed.

Lemma MonthFromTime_MakeDate : MonthFromTime t = m.
Proof.
  unfold MonthFromTime.
  rewrite DayWithinYear_MakeDate, YearFromTime_MakeDate.
  now apply MonthFromDayWithinYear_inv.
Qed.

Lemma DateFromTime_MakeDate : DateFromTime t = d.
Proof.
  unfold DateFromTime.
  rewrite MonthFromTime_MakeDate, DayWithinYear_MakeDate,
    YearFromTime_MakeDate.
  lia.
Qed.

End Fields.

(** Conversely the fields read from any time value are a month and a date
    of that month, and building from them gives the time value back. *)
Lemma DayWithinYear_range (t : Z) :
  0 <= DayWithinYear t < DaysInYear (YearFromTime t).
Proof.
  unfold DayWithinYear, YearFromTime.
  pose proof (YearFromDay_spec (Day t)) as H.
  rewrite DayFromYear_succ in H. lia.
Qed.

Lemma MonthFromTime_range (t : Z) : 0 <= MonthFromTime t <= 11.
Proof.
  unfold MonthFromTime.
  apply (MonthFromDayWithinYear_range (YearFromTime t) (DayWithinYear t)).
  apply DayWithinYear_range.
Qed.

Lemma DateFromTime_range (t : Z) :
  1 <= DateFromTime t <= DaysInMonth (YearFromTime t) (MonthFromTime t).
Proof.
  unfold DateFromTime, MonthFromTime.
  apply (MonthFromDayWithinYear_range (YearFromTime t) (DayWithinYear t)).
  apply DayWithinYear_range.
Qed.

Lemma MakeDay_fields (t : Z) :
  MakeDay (YearFromTime t) (MonthFromTime t) (DateFromTime t) = Day t.
Proof.
  rewrite MakeDay_in_range by apply MonthFromTime_range.
  unfold DateFromTime, DayWithinYear. lia.
Qed.

Lemma WeekDay_range (t : Z) : 0 <= WeekDay t <= 6.
Proof. unfold WeekDay. euclid. Qed.

(** Carrying over: day 0 of the next month is the last day of this one,
    and month -1 is December of the year before. *)
Lemma MakeDay_next_month_0 (y m : Z) :
  0 <= m <= 11 -> MakeDay y (m + 1) 0 = MakeDay y m (DaysInMonth y m).
Proof.
  intros Hm. rewrite (MakeDay_in_range y m) by exact Hm.
  destruct (Z.eq_dec m 11) as [-> | Hne].
  - unfold MakeDay. change ((11 + 1) / 12) with 1.
    change ((11 + 1) mod 12) with 0.
    rewrite DayFromYear_succ.
    pose proof (DayFromMonth_last y). cbn [DayFromMonth] in *. lia.
  - rewrite MakeDay_in_range by lia.
    rewrite DayFromMonth_succ by lia. lia.
Qed.

Lemma MakeDay_month_carry (y m d : Z) :
  MakeDay y m d = MakeDay (y + m / 12) (m mod 12) d.
Proof.
  unfold MakeDay.
  replace (m mod 12 / 12) with 0 by euclid.
  replace ((m mod 12) mod 12) with (m mod 12) by euclid.
  now rewrite Z.add_0_r.
Qed.

End TimeValues.

(** ** [dayjs] on calendar fields *)

Section DayjsFields.

Import ES.

Lemma set_date_on_day (d : Dayjs.t) (n : Z) :
  Dayjs.set_date d n
  = on_day (Dayjs.year d) (Dayjs.month d) n (time_of_day d).
Proof. reflexivity. Qed.

Lemma month_range (d : Dayjs.t) : 0 <= Dayjs.month d <= 11.
Proof. apply MonthFromTime_range. Qed.

Lemma date_range (d : Dayjs.t) :
  1 <= Dayjs.date d <= DaysInMonth (Dayjs.year d) (Dayjs.month d).
Proof. apply DateFromTime_range. Qed.

Lemma time_of_day_range (d : Dayjs.t) : 0 <= time_of_day d < msPerDay.
Proof. apply TimeWithinDay_range. Qed.

Section OnDay.

Variables (y m d time : Z).
Hypothesis Hm : 0 <= m <= 11.
Hypothesis Hd : 1 <= d <= DaysInMonth y m.
Hypothesis Htime : 0 <= time < msPerDay.

Lemma year_on_day : Dayjs.year (on_day y m d time) = y.
Proof. now apply YearFromTime_MakeDate. Qed.

Lemma month_on_day : Dayjs.month (on_day y m d time) = m.
Proof. now apply MonthFromTime_MakeDate. Qed.

Lemma date_on_day : Dayjs.date (on_day y m d time) = d.
Proof. now apply DateFromTime_MakeDate. Qed.

Lemma time_of_day_on_day : time_of_day (on_day y m d time) = time.
Proof. now apply TimeWithinDay_MakeDate. Qed.

End OnDay.

(** The years 1 to 99 and the years 1901 to 1999 have the same leap
    years; the year 0 is a leap year and 1900 is not. *)
Lemma InLeapYear_MakeFullYear (y : Z) :
  y <> 0 -> InLeapYear (MakeFullYear y) = InLeapYear y.
Proof.
  intros Hy. unfold MakeFullYear.
  destruct (Z.leb_spec 0 y) as [Hlo | Hlo]; [ | reflexivity].
  destruct (Z.leb_spec y 99) as [Hhi | Hhi]; [ | reflexivity].
  cbn [andb]. unfold InLeapYear.
  replace ((1900 + y) mod 4) with (y mod 4) by (Z.div_mod_to_equations; lia).
  destruct (Z.eqb_spec (y mod 4) 0) as [H4 | H4]; [ | reflexivity].
  cbn [negb].
  destruct (Z.eqb_spec ((1900 + y) mod 100) 0) as [H | H]; [Z.div_mod_to_equations; lia | ].
  destruct (Z.eqb_spec (y mod 100) 0) as [H' | H']; [Z.div_mod_to_equations; lia | reflexivity].
Qed.

Lemma month_length_days_in (ym : Z * Z) :
  fst ym <> 0 -> month_length ym = days_in ym.
Proof.
  intros Hy. unfold month_length, days_in, DaysInMonth.
  now rewrite InLeapYear_MakeFullYear.
Qed.

(** In the year 0 only February is counted short: 28 days for 29. *)
Lemma month_length_year_0 (m : Z) :
  month_length (0, m) = if m =? 1 then 28 else days_in (0, m).
Proof.
  unfold month_length, days_in, DaysInMonth. cbn [fst snd].
  destruct (Z.eqb_spec m 1) as [-> | Hne]; [reflexivity | ].
  destruct m as [ | p | p]; try reflexivity.
  do 4 (try destruct p as [ p | p | ]); try reflexivity; lia.
Qed.

Lemma month_length_range (ym : Z * Z) : 28 <= month_length ym <= 31.
Proof. apply DaysInMonth_range. Qed.

Lemma month_length_le (ym : Z * Z) : month_length ym <= days_in ym.
Proof.
  destruct ym as [y m]. destruct (Z.eq_dec y 0) as [-> | Hy].
  - rewrite month_length_year_0. destruct (Z.eqb_spec m 1) as [-> | _].
    + cbv. discriminate.
    + lia.
  - rewrite month_length_days_in by exact Hy. lia.
Qed.

(** [daysInMonth()] counts the days of the month in the year the
    constructor reads. *)
Lemma daysInMonth_calendar (d : Dayjs.t) :
  Dayjs.daysInMonth d
  = DaysInMonth (MakeFullYear (Dayjs.year d)) (Dayjs.month d).
Proof.
  unfold Dayjs.daysInMonth, Dayjs.endOf_month, Dayjs.endOf_day, Dayjs.date.
  cbn [Dayjs.valueOf].
  unfold setHours, newDate.
  rewrite Day_MakeDate by (unfold msPerDay; lia).
  rewrite MakeDay_next_month_0 by apply month_range.
  apply DateFromTime_MakeDate.
  - apply month_range.
  - pose proof (DaysInMonth_range (MakeFullYear (Dayjs.year d))
                  (Dayjs.month d)). lia.
  - cbv. split; [discriminate | reflexivity].
Qed.

Lemma daysInMonth_range (d : Dayjs.t) : 28 <= Dayjs.daysInMonth d <= 31.
Proof. rewrite daysInMonth_calendar. apply DaysInMonth_range. Qed.

(** [add(n, 'month')] lands in the month [n] months away, on the same
    day of the month when [daysInMonth()] counts that many days in that
    month and on the last day it counts otherwise, at the same time of
    day. *)
Lemma add_month_on_day (n : Z) (d : Dayjs.t) :
  let ym := shift_month (year_month d) n in
  Dayjs.add_month n d
  = on_day (fst ym) (snd ym)
      (Z.min (Dayjs.date d) (month_length ym))
      (time_of_day d).
Proof.
  cbv zeta. unfold shift_month, year_month. cbn [fst snd].
  set (y := Dayjs.year d). set (m := Dayjs.month d).
  set (y' := y + (m + n) / 12). set (m' := (m + n) mod 12).
  assert (Hm' : 0 <= m' <= 11) by (unfold m'; Z.div_mod_to_equations; lia).
  pose proof (month_range d) as Hm. fold m in Hm.
  pose proof (time_of_day_range d) as Ht.
  pose proof (DaysInMonth_range y m) as Hdim.
  pose proof (DaysInMonth_range y' m') as Hdim'.
  unfold Dayjs.add_month, Dayjs.set_month. fold m.
  rewrite (set_date_on_day d 1). fold y m.
  assert (Hfirst :
    Dayjs.wrap (setMonth (Dayjs.valueOf (on_day y m 1 (time_of_day d))) (m + n))
    = on_day y' m' 1 (time_of_day d)).
  { unfold setMonth, on_day. cbn [Dayjs.valueOf].
    rewrite YearFromTime_MakeDate, DateFromTime_MakeDate,
      TimeWithinDay_MakeDate by lia.
    now rewrite MakeDay_month_carry. }
  rewrite Hfirst, daysInMonth_calendar, set_date_on_day.
  rewrite year_on_day, month_on_day, time_of_day_on_day by lia.
  reflexivity.
Qed.

Lemma shift_month_prev (ym : Z * Z) :
  0 <= snd ym <= 11 -> shift_month ym (-1) = prev_month ym.
Proof.
  destruct ym as [y m]. unfold shift_month, prev_month. cbn [fst snd].
  intros Hm. destruct (Z.eqb_spec m 0) as [-> | Hne].
  - reflexivity.
  - f_equal; Z.div_mod_to_equations; lia.
Qed.

Lemma shift_month_next (ym : Z * Z) :
  0 <= snd ym <= 11 -> shift_month ym 1 = next_month ym.
Proof.
  destruct ym as [y m]. unfold shift_month, next_month. cbn [fst snd].
  intros Hm. destruct (Z.eqb_spec m 11) as [-> | Hne].
  - reflexivity.
  - f_equal; Z.div_mod_to_equations; lia.
Qed.

Lemma prev_month_range (ym : Z * Z) :
  0 <= snd ym <= 11 -> 0 <= snd (prev_month ym) <= 11.
Proof.
  destruct ym as [y m]. unfold prev_month. cbn [snd].
  destruct (Z.eqb_spec m 0); cbn [snd]; lia.
Qed.

Lemma next_month_range (ym : Z * Z) :
  0 <= snd ym <= 11 -> 0 <= snd (next_month ym) <= 11.
Proof.
  destruct ym as [y m]. unfold next_month. cbn [snd].
  destruct (Z.eqb_spec m 11); cbn [snd]; lia.
Qed.

(** The dates [getMonthDays] builds: a day of the month before, of the
    reference month, of the month after. *)
Lemma set_date_add_month (n : Z) (d : Dayjs.t) (k : Z) :
  let ym := shift_month (year_month d) n in
  Dayjs.set_date (Dayjs.add_month n d) k
  = on_day (fst ym) (snd ym) k (time_of_day d).
Proof.
  cbv zeta. rewrite set_date_on_day, add_month_on_day. cbv zeta.
  set (ym := shift_month (year_month d) n).
  assert (Hm : 0 <= snd ym <= 11)
    by (unfold ym, shift_month; cbn [snd]; Z.div_mod_to_equations; lia).
  pose proof (date_range d) as Hd.
  pose proof (month_length_range ym) as Hlen.
  pose proof (month_length_le ym) as Hle. unfold days_in in Hle.
  pose proof (time_of_day_range d) as Ht.
  rewrite year_on_day, month_on_day, time_of_day_on_day by lia.
  reflexivity.
Qed.

Lemma daysInMonth_add_month (n : Z) (d : Dayjs.t) :
  let ym := shift_month (year_month d) n in
  Dayjs.daysInMonth (Dayjs.add_month n d) = month_length ym.
Proof.
  cbv zeta. rewrite daysInMonth_calendar, add_month_on_day. cbv zeta.
  set (ym := shift_month (year_month d) n).
  assert (Hm : 0 <= snd ym <= 11)
    by (unfold ym, shift_month; cbn [snd]; Z.div_mod_to_equations; lia).
  pose proof (date_range d) as Hd.
  pose proof (month_length_range ym) as Hlen.
  pose proof (month_length_le ym) as Hle. unfold days_in in Hle.
  pose proof (time_of_day_range d) as Ht.
  rewrite year_on_day, month_on_day by lia.
  reflexivity.
Qed.

(** The lead offset is a weekday index; it is the weekday of day 1 of the
    month, counted from [firstDayOfWeek]. *)
Lemma leadOffset_range (d : Dayjs.t) (f : Z) : 0 <= leadOffset d f <= 6.
Proof.
  unfold leadOffset.
  pose proof (WeekDay_range (Dayjs.valueOf (Dayjs.set_date d (1 - f)))) as H.
  unfold Dayjs.day. rewrite Z.rem_mod_nonneg by lia.
  rewrite Z.mod_small; lia.
Qed.

Lemma leadOffset_weekday (d : Dayjs.t) (f : Z) :
  leadOffset d f = (Dayjs.day (Dayjs.set_date d 1) - f) mod 7.
Proof.
  unfold leadOffset.
  pose proof (WeekDay_range (Dayjs.valueOf (Dayjs.set_date d (1 - f)))) as H.
  unfold Dayjs.day in *. rewrite Z.rem_mod_nonneg by lia.
  rewrite Z.mod_small by lia.
  rewrite !set_date_on_day. unfold on_day, WeekDay. cbn [Dayjs.valueOf].
  pose proof (time_of_day_range d) as Ht.
  rewrite !Day_MakeDate by exact Ht.
  unfold MakeDay. Z.div_mod_to_equations. lia.
Qed.

End DayjsFields.

(** ** Decimal texts *)

Section Texts.

Open Scope string_scope.

Lemma digits_prefix_string_of_uint (u : uint) :
  JS.digits_prefix (NilEmpty.string_of_uint u) = u.
Proof. induction u; cbn; now f_equal. Qed.

Lemma digits_prefix_zeros (n : nat) (s : string) :
  Z.of_uint (JS.digits_prefix (JS.zeros n ++ s))
  = Z.of_uint (JS.digits_prefix s).
Proof. induction n as [ | n IH]; [reflexivity | exact IH]. Qed.

Lemma digits_prefix_zeros_nonnil (n : nat) (s : string) :
  JS.digits_prefix s <> Nil -> JS.digits_prefix (JS.zeros n ++ s) <> Nil.
Proof. destruct n; [trivial | discriminate]. Qed.

Lemma digits_value_some (s : string) :
  JS.digits_prefix s <> Nil ->
  JS.digits_value s = Some (Z.of_uint (JS.digits_prefix s)).
Proof. unfold JS.digits_value. destruct (JS.digits_prefix s); congruence. Qed.

Lemma of_uint_to_uint (p : positive) : Z.of_uint (Pos.to_uint p) = Z.pos p.
Proof. unfold Z.of_uint. now rewrite DecimalPos.Unsigned.of_to. Qed.

(** The text of a positive number, with or without padding, reads back
    as the number. *)
Lemma digits_value_pos (n : nat) (p : positive) :
  JS.digits_value (JS.zeros n ++ NilEmpty.string_of_uint (Pos.to_uint p))
  = Some (Z.pos p).
Proof.
  pose proof (DecimalPos.Unsigned.to_uint_nonnil p) as Hp.
  rewrite digits_value_some.
  - now rewrite digits_prefix_zeros, digits_prefix_string_of_uint,
      of_uint_to_uint.
  - apply digits_prefix_zeros_nonnil.
    now rewrite digits_prefix_string_of_uint.
Qed.

Lemma toString_pos (p : positive) :
  JS.toString (Z.pos p) = NilEmpty.string_of_uint (Pos.to_uint p).
Proof.
  unfold JS.toString. cbn.
  pose proof (DecimalPos.Unsigned.to_uint_nonnil p) as Hp.
  now destruct (Pos.to_uint p).
Qed.

Lemma toString_neg (p : positive) :
  JS.toString (Z.neg p)
  = String "-" (NilEmpty.string_of_uint (Pos.to_uint p)).
Proof.
  unfold JS.toString. cbn.
  pose proof (DecimalPos.Unsigned.to_uint_nonnil p) as Hp.
  now destruct (Pos.to_uint p).
Qed.

(** A text that starts with a digit is read by [parseInt] as its digits. *)
Lemma parseInt_digits (s : string) :
  JS.digits_prefix s <> Nil -> JS.parseInt s = JS.digits_value s.
Proof.
  destruct s as [ | c r]; [now intros [] | ].
  destruct c as [[|] [|] [|] [|] [|] [|] [|] [|]]; cbn;
    try (now intros []); reflexivity.
Qed.

Lemma padStart_cases (n : Z) (k : nat) :
  exists j, Dayjs.padStart n k = JS.zeros j ++ JS.toString n.
Proof.
  unfold Dayjs.padStart.
  destruct (k <=? String.length (JS.toString n))%nat.
  - now exists 0%nat.
  - now eexists.
Qed.

Lemma parseInt_padStart_nonneg (n : Z) (k : nat) :
  0 <= n -> JS.parseInt (Dayjs.padStart n k) = Some n.
Proof.
  intros Hn. destruct (padStart_cases n k) as [j ->].
  destruct n as [ | p | p]; [ | | lia].
  - rewrite parseInt_digits by (apply digits_prefix_zeros_nonnil; discriminate).
    rewrite digits_value_some by (apply digits_prefix_zeros_nonnil; discriminate).
    now rewrite digits_prefix_zeros.
  - rewrite toString_pos.
    pose proof (DecimalPos.Unsigned.to_uint_nonnil p) as Hp.
    rewrite parseInt_digits.
    + apply digits_value_pos.
    + apply digits_prefix_zeros_nonnil.
      now rewrite digits_prefix_string_of_uint.
Qed.

(** A number of three digits or more is at least 100. *)
Lemma short_text_small (p : positive) :
  (String.length (NilEmpty.string_of_uint (Pos.to_uint p)) <= 2)%nat ->
  (p < 100)%positive.
Proof.
  intros Hlen. pose proof (of_uint_to_uint p) as Hv.
  destruct (Pos.to_uint p) as [ | u | u | u | u | u | u | u | u | u | u];
    [ discriminate Hv | .. ];
    (destruct u as [ | u | u | u | u | u | u | u | u | u | u];
     [ cbv in Hv; first [discriminate Hv | injection Hv as <-; reflexivity]
     | .. ]);
    (destruct u;
     [ cbv in Hv; first [discriminate Hv | injection Hv as <-; reflexivity]
     | cbn in Hlen; lia .. ]).
Qed.

Lemma parseInt_padStart_neg_long (p : positive) :
  (100 <= p)%positive ->
  JS.parseInt (Dayjs.padStart (Z.neg p) 4) = Some (Z.neg p).
Proof.
  intros Hp. unfold Dayjs.padStart. rewrite toString_neg.
  set (u := NilEmpty.string_of_uint (Pos.to_uint p)).
  assert (Hlen : (3 <= String.length u)%nat).
  { destruct (Nat.le_gt_cases 3 (String.length u)) as [H | H]; [exact H | ].
    assert (p < 100)%positive by (apply short_text_small; fold u; lia). lia. }
  cbn [String.length].
  destruct (Nat.leb_spec 4 (S (String.length u))) as [_ | H]; [ | lia].
  change (JS.parseInt (String "-" u)) with (option_map Z.opp (JS.digits_value u)).
  unfold u.
  now rewrite (digits_value_pos 0 p
               : JS.digits_value (NilEmpty.string_of_uint (Pos.to_uint p)) = _).
Qed.

Lemma parseInt_padStart_neg_short (y : Z) :
  -100 < y < 0 -> JS.parseInt (Dayjs.padStart y 4) = Some 0.
Proof.
  intros Hy.
  assert (Hall : forallb (fun i =>
            match JS.parseInt (Dayjs.padStart (- Z.of_nat i) 4) with
            | Some 0 => true
            | _ => false
            end) (seq 1 99) = true) by (vm_compute; reflexivity).
  rewrite forallb_forall in Hall.
  specialize (Hall (Z.to_nat (- y))).
  rewrite in_seq, Z2Nat.id, Z.opp_involutive in Hall by lia.
  assert (Hin : (1 <= Z.to_nat (- y) < 1 + 99)%nat) by lia.
  specialize (Hall Hin).
  destruct (JS.parseInt (Dayjs.padStart y 4)) as [[ | q | q] | ];
    [reflexivity | discriminate Hall ..].
Qed.

(** What [parseInt] reads in the ["YYYY"] text of a year: the year, except
    that the padded text of the years -99 to -1 starts with a zero and
    reads as 0. *)
Lemma parseInt_YYYY (y : Z) :
  JS.parseInt (Dayjs.padStart y 4) = Some (year_read y).
Proof.
  unfold year_read.
  destruct (Z.ltb_spec (-100) y) as [H1 | H1];
    destruct (Z.ltb_spec y 0) as [H2 | H2]; cbn [andb].
  - apply parseInt_padStart_neg_short. lia.
  - apply parseInt_padStart_nonneg. lia.
  - destruct y as [ | p | p]; try lia.
    apply parseInt_padStart_neg_long. lia.
  - lia.
Qed.

Lemma format_YYYY (d : Dayjs.t) :
  Dayjs.format d "YYYY" = Dayjs.padStart (Dayjs.year d) 4.
Proof. reflexivity. Qed.

Lemma format_DATE_FORMAT (d : Dayjs.t) :
  Dayjs.format d Utils.DATE_FORMAT = date_text (year_month d) (Dayjs.date d).
Proof. reflexivity. Qed.

End Texts.

(** ** Reading date texts back *)

Section Readers.

Open Scope string_scope.

Lemma read_number_digits (u : uint) :
  u <> Nil -> read_number (NilEmpty.string_of_uint u) = Some (Z.of_uint u).
Proof.
  induction u as [ | u IH | u _ | u _ | u _ | u _ | u _ | u _ | u _ | u _
                   | u _ ]; intros Hu; try congruence;
    try (cbn [NilEmpty.string_of_uint read_number Ascii.eqb Bool.eqb];
         rewrite digits_value_some by (cbn; discriminate);
         cbn [JS.digits_prefix]; now rewrite digits_prefix_string_of_uint).
  cbn [NilEmpty.string_of_uint read_number Ascii.eqb Bool.eqb].
  destruct u; try reflexivity; apply IH; discriminate.
Qed.

Lemma read_number_toString (n : Z) : read_number (JS.toString n) = Some n.
Proof.
  destruct n as [ | p | p].
  - reflexivity.
  - rewrite toString_pos, read_number_digits, of_uint_to_uint;
      [reflexivity | apply DecimalPos.Unsigned.to_uint_nonnil].
  - rewrite toString_neg. cbn [read_number Ascii.eqb Bool.eqb].
    now rewrite (digits_value_pos 0 p
                 : JS.digits_value (NilEmpty.string_of_uint (Pos.to_uint p)) = _).
Qed.

Lemma toString_nonempty (n : Z) : JS.toString n <> "".
Proof.
  destruct n as [ | p | p].
  - discriminate.
  - rewrite toString_pos.
    pose proof (DecimalPos.Unsigned.to_uint_nonnil p).
    destruct (Pos.to_uint p); cbn; congruence.
  - rewrite toString_neg. discriminate.
Qed.

Lemma read_number_zeros (j : nat) (s : string) :
  s <> "" -> read_number (JS.zeros j ++ s) = read_number s.
Proof.
  intros Hs. induction j as [ | j IH]; [reflexivity | ].
  cbn [JS.zeros append read_number Ascii.eqb Bool.eqb].
  rewrite <- IH.
  destruct (JS.zeros j ++ s) eqn:E; [ | reflexivity].
  destruct j; cbn in E; [congruence | discriminate].
Qed.

(** A padded number reads back as the number, whatever its sign. *)
Lemma read_number_padStart (n : Z) (k : nat) :
  read_number (Dayjs.padStart n k) = Some n.
Proof.
  destruct (padStart_cases n k) as [j ->].
  rewrite read_number_zeros by apply toString_nonempty.
  apply read_number_toString.
Qed.

Lemma padStart_two (n : Z) :
  0 <= n <= 99 -> String.length (Dayjs.padStart n 2) = 2%nat.
Proof.
  intros Hn.
  assert (Hall : forallb (fun i =>
            (String.length (Dayjs.padStart (Z.of_nat i) 2) =? 2)%nat)
            (seq 0 100) = true) by (vm_compute; reflexivity).
  rewrite forallb_forall in Hall.
  specialize (Hall (Z.to_nat n)).
  rewrite in_seq, Z2Nat.id in Hall by lia.
  apply Nat.eqb_eq, Hall. lia.
Qed.

Lemma split_date_text_app (y m d : string) :
  String.length m = 2%nat -> String.length d = 2%nat ->
  split_date_text (y ++ "-" ++ m ++ "-" ++ d) = Some (y, m, d).
Proof.
  intros Hm Hd.
  destruct m as [ | m1 [ | m2 [ | ? ?]]]; try discriminate Hm.
  destruct d as [ | d1 [ | d2 [ | ? ?]]]; try discriminate Hd.
  induction y as [ | c y IH]; [reflexivity | ].
  cbn [append split_date_text]. cbn [append] in IH. rewrite IH.
  destruct y as [ | ? [ | ? [ | ? [ | ? [ | ? [ | ? ?]]]]]]; reflexivity.
Qed.

(** The text of a date reads back as the date. *)
Lemma read_date_text_date_text (ym : Z * Z) (d : Z) :
  0 <= snd ym <= 11 -> 1 <= d <= 31 ->
  read_date_text (date_text ym d) = Some (fst ym, snd ym, d).
Proof.
  intros Hm Hd. unfold read_date_text, date_text.
  rewrite split_date_text_app by (apply padStart_two; lia).
  rewrite !read_number_padStart. do 2 f_equal. f_equal. lia.
Qed.

End Readers.

(** ** The cells *)

Section Cells.

Import ES.

Lemma lt_before_bound (u m : Dayjs.t) (bound : Utils.DateType) :
  Utils.truthy bound = true -> Utils.getDate bound = Some m ->
  Dayjs.lt u m = before_bound (Dayjs.valueOf u) bound.
Proof.
  unfold before_bound, instant, Utils.getDate. intros -> ->. reflexivity.
Qed.

(** What [generateDayObject] computes for [disabled]. *)
Lemma generateDayObject_disabled (k : Z) (u : Dayjs.t)
    (minDate maxDate : Utils.DateType) (cur : bool) :
  Utils.disabled (Utils.generateDayObject k u minDate maxDate cur)
  = before_bound (Dayjs.valueOf u) minDate
    || after_bound (Dayjs.valueOf u) maxDate.
Proof.
  unfold Utils.generateDayObject, before_bound, after_bound, instant,
    Utils.getDate, Dayjs.lt, Dayjs.gt.
  cbn [Utils.disabled].
  destruct minDate as [ | a | a], maxDate as [ | b | b];
    cbn [Utils.truthy Utils.dayjs option_map Dayjs.valueOf andb negb orb];
    rewrite ?Z.gtb_ltb;
    repeat match goal with
           | |- context [negb (?x =? 0)] => destruct (x =? 0); cbn [negb andb]
           end;
    repeat match goal with
           | |- context [Dayjs.valueOf u <? ?x] =>
               destruct (Dayjs.valueOf u <? x); cbn [negb andb orb]
           end;
    rewrite ?orb_false_r; reflexivity.
Qed.

(** The cell [generateDayObject] builds for a day of a month. *)
Lemma generateDayObject_cell (time : Z) (minDate maxDate : Utils.DateType)
    (ym : Z * Z) (cur : bool) (k : Z) :
  0 <= snd ym <= 11 -> 1 <= k <= DaysInMonth (fst ym) (snd ym) ->
  0 <= time < msPerDay ->
  Some (Utils.generateDayObject k (on_day (fst ym) (snd ym) k time)
          minDate maxDate cur)
  = cell time minDate maxDate ym cur k.
Proof.
  intros Hm Hk Ht. unfold cell. f_equal.
  rewrite <- generateDayObject_disabled with (k := k) (cur := cur).
  unfold Utils.generateDayObject at 1. cbn [Utils.disabled]. f_equal.
  unfold Utils.getFormatedDate. rewrite format_DATE_FORMAT.
  unfold year_month.
  rewrite year_on_day, month_on_day, date_on_day by assumption.
  now destruct ym.
Qed.

End Cells.

(** ** The month grid *)

Section Grid.

Import ES.

Lemma consecutive_length (a : Z) (n : nat) :
  List.length (consecutive a n) = n.
Proof. unfold consecutive. now rewrite length_map, length_seq. Qed.

Lemma consecutive_nth_error (a : Z) (n i : nat) :
  (i < n)%nat -> nth_error (consecutive a n) i = Some (a + Z.of_nat i).
Proof.
  intros Hi. unfold consecutive.
  rewrite nth_error_map, nth_error_seq.
  destruct (Nat.ltb_spec i n); [reflexivity | lia].
Qed.

Lemma consecutive_In (a : Z) (n : nat) (k : Z) :
  In k (consecutive a n) <-> a <= k < a + Z.of_nat n.
Proof.
  unfold consecutive. rewrite in_map_iff. split.
  - intros (i & <- & Hi). apply in_seq in Hi. lia.
  - intros Hk. exists (Z.to_nat (k - a)). split; [lia | ].
    apply in_seq. lia.
Qed.





(** [Array.from] over cells of consecutive days of one month. *)
Lemma Array_from_cells (n a : Z) (g : Z -> option Utils.IDayObject)
    (c : Z -> option Utils.IDayObject) :
  (forall i, 0 <= i < n -> g i = c (a + i)) ->
  JS.Array_from n g = map c (consecutive a (Z.to_nat n)).
Proof.
  intros H. unfold JS.Array_from, consecutive. rewrite map_map.
  apply map_ext_in. intros i Hi. apply in_seq in Hi.
  apply H. lia.
Qed.

Lemma grid_size_trailing (occupied : Z) :
  28 <= occupied <= 37 -> 0 <= grid_size occupied - occupied <= 7.
Proof. unfold grid_size. destruct (Z.leb_spec occupied 35); lia. Qed.

(** The lead offset, the days of the months and the dates of the cells,
    as [getMonthDays] writes them. *)
Lemma leadOffset_eq (d : Dayjs.t) (f : Z) :
  Z.rem (Dayjs.day (Dayjs.set_date d (1 - f))) 7 = leadOffset d f.
Proof. unfold leadOffset. reflexivity. Qed.

Lemma daysInMonth_month_length (d : Dayjs.t) :
  Dayjs.daysInMonth d = month_length (year_month d).
Proof.
  rewrite daysInMonth_calendar. unfold month_length, year_month. reflexivity.
Qed.

Lemma days_in_range (ym : Z * Z) : 28 <= days_in ym <= 31.
Proof. apply DaysInMonth_range. Qed.

Lemma year_month_range (d : Dayjs.t) : 0 <= snd (year_month d) <= 11.
Proof. unfold year_month. cbn [snd]. apply month_range. Qed.

Lemma daysInMonth_prev (d : Dayjs.t) :
  Dayjs.daysInMonth (Dayjs.add_month (-1) d)
  = month_length (prev_month (year_month d)).
Proof.
  pose proof (daysInMonth_add_month (-1) d) as H. cbv zeta in H.
  rewrite shift_month_prev in H by apply year_month_range.
  exact H.
Qed.

Lemma set_date_prev (d : Dayjs.t) (k : Z) :
  Dayjs.set_date (Dayjs.add_month (-1) d) k
  = on_day (fst (prev_month (year_month d))) (snd (prev_month (year_month d)))
      k (time_of_day d).
Proof.
  pose proof (set_date_add_month (-1) d k) as H. cbv zeta in H.
  rewrite shift_month_prev in H by apply year_month_range.
  exact H.
Qed.

Lemma set_date_next (d : Dayjs.t) (k : Z) :
  Dayjs.set_date (Dayjs.add_month 1 d) k
  = on_day (fst (next_month (year_month d))) (snd (next_month (year_month d)))
      k (time_of_day d).
Proof.
  pose proof (set_date_add_month 1 d k) as H. cbv zeta in H.
  rewrite shift_month_next in H by apply year_month_range.
  exact H.
Qed.

Lemma set_date_current (d : Dayjs.t) (k : Z) :
  Dayjs.set_date d k
  = on_day (fst (year_month d)) (snd (year_month d)) k (time_of_day d).
Proof. rewrite set_date_on_day. unfold year_month. reflexivity. Qed.

Lemma generateDayObject_day (time : Z) (minDate maxDate : Utils.DateType)
    (ym : Z * Z) (cur : bool) (k : Z) :
  0 <= snd ym <= 11 -> 1 <= k <= days_in ym ->
  0 <= time < msPerDay ->
  Some (Utils.generateDayObject k (on_day (fst ym) (snd ym) k time)
          minDate maxDate cur)
  = cell time minDate maxDate ym cur k.
Proof. unfold days_in. apply generateDayObject_cell. Qed.

Lemma generateDayObject_counted_day (time : Z)
    (minDate maxDate : Utils.DateType) (ym : Z * Z) (cur : bool) (k : Z) :
  0 <= snd ym <= 11 -> 1 <= k <= month_length ym ->
  0 <= time < msPerDay ->
  Some (Utils.generateDayObject k (on_day (fst ym) (snd ym) k time)
          minDate maxDate cur)
  = cell time minDate maxDate ym cur k.
Proof.
  intros Hm Hk Ht. pose proof (month_length_le ym) as Hle.
  apply generateDayObject_day; [exact Hm | lia | exact Ht].
Qed.

Section OneGrid.

Variables (datetime : Dayjs.t) (minimumDate maximumDate : Utils.DateType).
Variable firstDayOfWeek : Z.

Lemma current_cells :
  JS.Array_from (Dayjs.daysInMonth datetime) (fun i =>
    Some (Utils.generateDayObject (i + 1) (Dayjs.set_date datetime (i + 1))
            minimumDate maximumDate true))
  = map (cell (time_of_day datetime) minimumDate maximumDate
           (year_month datetime) true)
      (consecutive 1 (Z.to_nat (month_length (year_month datetime)))).
Proof.
  rewrite daysInMonth_month_length. apply Array_from_cells. intros i Hi.
  rewrite set_date_current. replace (1 + i) with (i + 1) by lia.
  apply generateDayObject_counted_day.
  - apply year_month_range.
  - lia.
  - apply time_of_day_range.
Qed.

Lemma leading_cells :
  JS.Array_from (leadOffset datetime firstDayOfWeek) (fun i =>
    Some (Utils.generateDayObject
            (i + (Dayjs.daysInMonth (Dayjs.add_month (-1) datetime)
                  - leadOffset datetime firstDayOfWeek + 1))
            (Dayjs.set_date (Dayjs.add_month (-1) datetime)
               (i + (Dayjs.daysInMonth (Dayjs.add_month (-1) datetime)
                     - leadOffset datetime firstDayOfWeek + 1)))
            minimumDate maximumDate false))
  = map (cell (time_of_day datetime) minimumDate maximumDate
           (prev_month (year_month datetime)) false)
      (consecutive
         (month_length (prev_month (year_month datetime))
          - leadOffset datetime firstDayOfWeek + 1)
         (Z.to_nat (leadOffset datetime firstDayOfWeek))).
Proof.
  pose proof (leadOffset_range datetime firstDayOfWeek) as Hl.
  pose proof (month_length_range (prev_month (year_month datetime))) as Hp.
  rewrite daysInMonth_prev.
  apply Array_from_cells. intros i Hi.
  rewrite set_date_prev.
  replace (month_length (prev_month (year_month datetime))
           - leadOffset datetime firstDayOfWeek + 1 + i)
    with (i + (month_length (prev_month (year_month datetime))
               - leadOffset datetime firstDayOfWeek + 1)) by lia.
  apply generateDayObject_counted_day.
  - apply prev_month_range, year_month_range.
  - lia.
  - apply time_of_day_range.
Qed.

Lemma trailing_cells (n : Z) :
  n <= 28 ->
  JS.Array_from n (fun i =>
    Some (Utils.generateDayObject (i + 1)
            (Dayjs.set_date (Dayjs.add_month 1 datetime) (i + 1))
            minimumDate maximumDate false))
  = map (cell (time_of_day datetime) minimumDate maximumDate
           (next_month (year_month datetime)) false)
      (consecutive 1 (Z.to_nat n)).
Proof.
  intros Hn.
  pose proof (month_length_range (next_month (year_month datetime))) as Hp.
  apply Array_from_cells. intros i Hi.
  rewrite set_date_next.
  replace (1 + i) with (i + 1) by lia.
  apply generateDayObject_counted_day.
  - apply next_month_range, year_month_range.
  - lia.
  - apply time_of_day_range.
Qed.

Lemma trailing_length (occupied : Z) :
  (if occupied >? 35 then 42 - occupied else 35 - occupied)
  = grid_size occupied - occupied.
Proof.
  unfold grid_size. rewrite Z.gtb_ltb.
  destruct (Z.leb_spec occupied 35), (Z.ltb_spec 35 occupied); lia.
Qed.

(** The grid with full days: three runs of cells, of the lengths that
    [daysInMonth()] gives. *)
Lemma getMonthDays_full :
  Utils.getMonthDays datetime true minimumDate maximumDate firstDayOfWeek
  = map (cell (time_of_day datetime) minimumDate maximumDate
           (prev_month (year_month datetime)) false)
      (consecutive
         (month_length (prev_month (year_month datetime))
          - leadOffset datetime firstDayOfWeek + 1)
         (Z.to_nat (leadOffset datetime firstDayOfWeek)))
    ++ map (cell (time_of_day datetime) minimumDate maximumDate
              (year_month datetime) true)
         (consecutive 1 (Z.to_nat (month_length (year_month datetime))))
    ++ map (cell (time_of_day datetime) minimumDate maximumDate
              (next_month (year_month datetime)) false)
         (consecutive 1
            (Z.to_nat
               (grid_size (leadOffset datetime firstDayOfWeek
                           + month_length (year_month datetime))
                - (leadOffset datetime firstDayOfWeek
                   + month_length (year_month datetime))))).
Proof.
  unfold Utils.getMonthDays. cbv zeta.
  rewrite !leadOffset_eq, leading_cells, current_cells.
  do 2 f_equal.
  rewrite trailing_length, daysInMonth_month_length.
  apply trailing_cells.
  pose proof (leadOffset_range datetime firstDayOfWeek) as Hl.
  pose proof (month_length_range (year_month datetime)) as Hd.
  pose proof (grid_size_trailing
                (leadOffset datetime firstDayOfWeek
                 + month_length (year_month datetime))).
  lia.
Qed.

(** The grid without full days: blanks, then the month. *)
Lemma getMonthDays_blank :
  Utils.getMonthDays datetime false minimumDate maximumDate firstDayOfWeek
  = repeat None (Z.to_nat (leadOffset datetime firstDayOfWeek))
    ++ map (cell (time_of_day datetime) minimumDate maximumDate
              (year_month datetime) true)
         (consecutive 1 (Z.to_nat (month_length (year_month datetime)))).
Proof.
  unfold Utils.getMonthDays. cbv zeta.
  rewrite !leadOffset_eq, current_cells.
  unfold JS.Array_fill. f_equal.
  unfold JS.Array_from. cbn [Z.to_nat seq map]. apply app_nil_r.
Qed.

End OneGrid.

End Grid.

(** ** Cells by position *)

Section Positions.

Import ES.

Ltac some_inj H H' :=
  match type of H with
  | Some ?a = Some ?b => assert (H' : a = b) by congruence
  end.

Lemma nth_error_cells (g : Z -> option Utils.IDayObject) (a : Z) (n i : nat) :
  nth_error (map g (consecutive a n)) i
  = if (i <? n)%nat then Some (g (a + Z.of_nat i)) else None.
Proof.
  rewrite nth_error_map.
  destruct (Nat.ltb_spec i n) as [Hi | Hi].
  - now rewrite consecutive_nth_error.
  - replace (nth_error (consecutive a n) i) with (@None Z); [reflexivity | ].
    symmetry. apply nth_error_None. now rewrite consecutive_length.
Qed.

(** Every cell of a grid is the cell of a day of the month of its
    region. *)
Lemma grid_cell_at (datetime : Dayjs.t) (full : bool)
    (minimumDate maximumDate : Utils.DateType) (firstDayOfWeek : Z)
    (i : nat) (c : Utils.IDayObject) :
  nth_error
    (Utils.getMonthDays datetime full minimumDate maximumDate firstDayOfWeek) i
  = Some (Some c) ->
  let r := region_of (Z.to_nat (leadOffset datetime firstDayOfWeek))
             (Z.to_nat (Dayjs.daysInMonth datetime)) i in
  let ym := region_month (year_month datetime) r in
  exists k : Z,
    1 <= k <= days_in ym
    /\ 0 <= snd ym <= 11
    /\ Some c = cell (time_of_day datetime) minimumDate maximumDate ym
                  (region_current r) k.
Proof.
  intros Hnth. cbv zeta.
  pose proof (leadOffset_range datetime firstDayOfWeek) as Hl.
  pose proof (year_month_range datetime) as Hm.
  pose proof (prev_month_range _ Hm) as Hpm.
  pose proof (next_month_range _ Hm) as Hnm.
  pose proof (month_length_range (year_month datetime)) as Hd.
  pose proof (month_length_range (prev_month (year_month datetime))) as Hp.
  pose proof (days_in_range (next_month (year_month datetime))) as Hn.
  pose proof (month_length_le (year_month datetime)) as Hd'.
  pose proof (month_length_le (prev_month (year_month datetime))) as Hp'.
  pose proof (grid_size_trailing
                (leadOffset datetime firstDayOfWeek
                 + month_length (year_month datetime))) as Ht.
  rewrite daysInMonth_month_length. unfold region_of.
  destruct full.
  - rewrite getMonthDays_full in Hnth.
    rewrite !nth_error_app, !length_map, !consecutive_length,
      !nth_error_cells in Hnth.
    destruct (Nat.ltb_spec i (Z.to_nat (leadOffset datetime firstDayOfWeek)))
      as [H1 | H1].
    + some_inj Hnth Hc. eexists. cbn [region_month region_current].
      split; [ | split; [exact Hpm | symmetry; exact Hc]]. lia.
    + destruct (Nat.ltb_spec
                  (i - Z.to_nat (leadOffset datetime firstDayOfWeek))
                  (Z.to_nat (month_length (year_month datetime)))) as [H2 | H2];
        destruct (Nat.ltb_spec i
                    (Z.to_nat (leadOffset datetime firstDayOfWeek)
                     + Z.to_nat (month_length (year_month datetime))))
          as [H3 | H3];
        try lia.
      * some_inj Hnth Hc. eexists. cbn [region_month region_current].
        split; [ | split; [exact Hm | symmetry; exact Hc]]. lia.
      * match type of Hnth with
        | context [(?x <? ?y)%nat] => destruct (Nat.ltb_spec x y) as [H4 | H4]
        end; [ | discriminate Hnth].
        some_inj Hnth Hc. eexists. cbn [region_month region_current].
        split; [ | split; [exact Hnm | symmetry; exact Hc]]. lia.
  - rewrite getMonthDays_blank in Hnth.
    rewrite nth_error_app, repeat_length, nth_error_cells in Hnth.
    destruct (Nat.ltb_spec i (Z.to_nat (leadOffset datetime firstDayOfWeek)))
      as [H1 | H1].
    + rewrite nth_error_repeat in Hnth by exact H1. discriminate Hnth.
    + destruct (Nat.ltb_spec
                  (i - Z.to_nat (leadOffset datetime firstDayOfWeek))
                  (Z.to_nat (month_length (year_month datetime)))) as [H2 | H2];
        [ | discriminate Hnth].
      destruct (Nat.ltb_spec i
                  (Z.to_nat (leadOffset datetime firstDayOfWeek)
                   + Z.to_nat (month_length (year_month datetime))))
        as [H3 | H3]; [ | lia].
      some_inj Hnth Hc. eexists. cbn [region_month region_current].
      split; [ | split; [exact Hm | symmetry; exact Hc]]. lia.
Qed.

(** The date a cell is built from: the day [k] of its month, at the
    reference's time of day. *)
Lemma cell_underlying (time : Z) (minimumDate maximumDate : Utils.DateType)
    (ym : Z * Z) (cur : bool) (k : Z) (c : Utils.IDayObject) :
  0 <= snd ym <= 11 -> 1 <= k <= days_in ym -> 0 <= time < msPerDay ->
  Some c = cell time minimumDate maximumDate ym cur k ->
  let u := on_day (fst ym) (snd ym) k time in
  c = Utils.generateDayObject k u minimumDate maximumDate cur
  /\ year_month u = ym /\ Dayjs.date u = k /\ time_of_day u = time.
Proof.
  intros Hm Hk Ht Hc. cbv zeta.
  rewrite <- generateDayObject_day in Hc by assumption.
  some_inj Hc Hc'. split; [exact Hc' | ].
  unfold days_in in Hk. unfold year_month.
  rewrite year_on_day, month_on_day, date_on_day, time_of_day_on_day
    by assumption.
  now destruct ym.
Qed.

End Positions.

(** * The claims *)

(** ** The length and the regions of the grid *)

(** C2.  With [displayFullDays] the grid has exactly 35 cells when
    [leadOffset + daysInMonth <= 35] and exactly 42 otherwise, whatever the
    reference date, the bounds and the first day of the week; so its length
    is a multiple of 7 and is 35 or 42.  For the reference 2024-02-01 and
    [firstDayOfWeek = 0] the lead offset is 4, the month has 29 days and
    the grid has 35 cells. *)
Theorem C2_full_grid_length :
  (forall (datetime : Dayjs.t) (minimumDate maximumDate : Utils.DateType)
          (firstDayOfWeek : Z),
      let occupied :=
        leadOffset datetime firstDayOfWeek + Dayjs.daysInMonth datetime in
      let n := List.length (Utils.getMonthDays datetime true minimumDate
                              maximumDate firstDayOfWeek) in
      n = (if occupied <=? 35 then 35%nat else 42%nat)
      /\ (n = 35 \/ n = 42)%nat
      /\ (n mod 7 = 0)%nat)
  /\ leadOffset (civil 2024 2 1 0 0) 0 = 4
  /\ Dayjs.daysInMonth (civil 2024 2 1 0 0) = 29
  /\ List.length (Utils.getMonthDays (civil 2024 2 1 0 0) true Utils.DT_absent
                    Utils.DT_absent 0) = 35%nat.
Proof.
  split; [ | repeat split; vm_compute; reflexivity].
  intros datetime minimumDate maximumDate firstDayOfWeek. cbv zeta.
  rewrite getMonthDays_full, daysInMonth_month_length.
  pose proof (leadOffset_range datetime firstDayOfWeek) as Hl.
  pose proof (month_length_range (year_month datetime)) as Hd.
  rewrite !length_app, !length_map, !consecutive_length.
  unfold grid_size.
  destruct (Z.leb_spec (leadOffset datetime firstDayOfWeek
                        + month_length (year_month datetime)) 35) as [H | H].
  - match goal with
    | |- ?n = _ /\ _ => replace n with 35%nat by lia
    end.
    repeat split. now left.
  - match goal with
    | |- ?n = _ /\ _ => replace n with 42%nat by lia
    end.
    repeat split. now right.
Qed.



(** C3.  The leading days are not always the last days of the month
    before.  For the reference 0000-03-10 and weeks that start on Sunday
    the lead offset is 3, and the month before, February of the year 0,
    has 29 days: its last three days are the 27th, the 28th and the
    29th, and [date(29)] on a date of that month is its 29th day.  But
    [daysInMonth()] counts 28 days in that month, and the grid leads with
    the 26th, the 27th and the 28th and goes on with the first of March:
    the 29th of February is in no cell of the grid. *)
Theorem C3_year_zero_leading_days :
  leadOffset (civil 0 3 10 0 0) 0 = 3
  /\ days_in (prev_month (year_month (civil 0 3 10 0 0))) = 29
  /\ Dayjs.format (Dayjs.set_date (civil 0 2 28 0 0) 29) Utils.DATE_FORMAT
     = "0000-02-29"%string
  /\ year_month (Dayjs.set_date (civil 0 2 28 0 0) 29) = (0, 1)
  /\ Dayjs.daysInMonth (Dayjs.add_month (-1) (civil 0 3 10 0 0)) = 28
  /\ firstn 4 (cell_dates (Utils.getMonthDays (civil 0 3 10 0 0) true
                             Utils.DT_absent Utils.DT_absent 0))
     = ["0000-02-26"; "0000-02-27"; "0000-02-28"; "0000-03-01"]%string
  /\ existsb (String.eqb "0000-02-29")
       (cell_dates (Utils.getMonthDays (civil 0 3 10 0 0) true
                      Utils.DT_absent Utils.DT_absent 0)) = false.
Proof. repeat split; vm_compute; reflexivity. Qed.


(** C10.  The grid does not depend on the day of the month of the
    reference: two references of the same year and month, at the same
    time of day, give the same grid, the other arguments being equal. *)
Theorem C10_day_of_month_irrelevant
    (d1 d2 : Dayjs.t) (displayFullDays : bool)
    (minimumDate maximumDate : Utils.DateType) (firstDayOfWeek : Z) :
  Dayjs.year d1 = Dayjs.year d2 ->
  Dayjs.month d1 = Dayjs.month d2 ->
  time_of_day d1 = time_of_day d2 ->
  Utils.getMonthDays d1 displayFullDays minimumDate maximumDate firstDayOfWeek
  = Utils.getMonthDays d2 displayFullDays minimumDate maximumDate
      firstDayOfWeek.
Proof.
  intros Hy Hm Ht.
  assert (Hym : year_month d1 = year_month d2)
    by (unfold year_month; congruence).
  assert (Hl : leadOffset d1 firstDayOfWeek = leadOffset d2 firstDayOfWeek)
    by (rewrite !leadOffset_weekday, !set_date_on_day; congruence).
  destruct displayFullDays.
  - now rewrite !getMonthDays_full, Hym, Hl, Ht.
  - now rewrite !getMonthDays_blank, Hym, Hl, Ht.
Qed.

(** C10 at work: the 5th and the 20th of March 2024, both at 08:30, with
    a lower bound and weeks that start on Monday. *)
Lemma C10_day_of_month_irrelevant_witness :
  Utils.getMonthDays (civil 2024 3 5 8 30) true
    (Utils.DT_date (civil 2024 3 10 0 0)) Utils.DT_absent 1
  = Utils.getMonthDays (civil 2024 3 20 8 30) true
      (Utils.DT_date (civil 2024 3 10 0 0)) Utils.DT_absent 1.
Proof.
  apply (C10_day_of_month_irrelevant (civil 2024 3 5 8 30)
           (civil 2024 3 20 8 30));
    vm_compute; reflexivity.
Defined.

(** ** The disabled flag *)

Section Instants.

Import ES.

(** Two instants at the same time of day compare as their days do. *)
Lemma same_time_compare (s t : Z) :
  TimeWithinDay s = TimeWithinDay t -> (s < t <-> Day s < Day t).
Proof.
  unfold TimeWithinDay, Day. intros H.
  pose proof (Z.div_mod s msPerDay ltac:(discriminate)) as Hs.
  pose proof (Z.div_mod t msPerDay ltac:(discriminate)) as Ht.
  rewrite H in Hs.
  set (qs := s / msPerDay) in *. set (qt := t / msPerDay) in *.
  set (r := t mod msPerDay) in *.
  clearbody qs qt r. clear H. subst s t.
  unfold msPerDay. split; intros H; lia.
Qed.

Lemma before_bound_iff (t : Z) (bound : Utils.DateType) :
  before_bound t bound = true <-> exists b, instant bound = Some b /\ t < b.
Proof.
  unfold before_bound. destruct (instant bound) as [b | ].
  - rewrite Z.ltb_lt. split.
    + intros H. now exists b.
    + now intros (b' & [= <-] & H).
  - split; [discriminate | now intros (b & [=] & _)].
Qed.

Lemma after_bound_iff (t : Z) (bound : Utils.DateType) :
  after_bound t bound = true <-> exists b, instant bound = Some b /\ b < t.
Proof.
  unfold after_bound. destruct (instant bound) as [b | ].
  - rewrite Z.ltb_lt. split.
    + intros H. now exists b.
    + now intros (b' & [= <-] & H).
  - split; [discriminate | now intros (b & [=] & _)].
Qed.

Lemma same_time_of_day_compare (u : Dayjs.t) (b time : Z) :
  time_of_day u = time -> TimeWithinDay b = time ->
  (Dayjs.valueOf u < b <-> Day (Dayjs.valueOf u) < Day b)
  /\ (b < Dayjs.valueOf u <-> Day b < Day (Dayjs.valueOf u)).
Proof.
  unfold time_of_day. intros Hu Hb.
  split; apply same_time_compare; congruence.
Qed.

End Instants.

(** The other fields [generateDayObject] fills. *)
Lemma generateDayObject_isCurrentMonth (k : Z) (u : Dayjs.t)
    (minDate maxDate : Utils.DateType) (cur : bool) :
  Utils.isCurrentMonth (Utils.generateDayObject k u minDate maxDate cur) = cur.
Proof. reflexivity. Qed.

Lemma generateDayObject_date (k : Z) (u : Dayjs.t)
    (minDate maxDate : Utils.DateType) (cur : bool) :
  Utils.date (Utils.generateDayObject k u minDate maxDate cur)
  = Dayjs.format u Utils.DATE_FORMAT.
Proof. reflexivity. Qed.

Lemma generateDayObject_day_field (k : Z) (u : Dayjs.t)
    (minDate maxDate : Utils.DateType) (cur : bool) :
  Utils.day (Utils.generateDayObject k u minDate maxDate cur) = k.
Proof. reflexivity. Qed.

Lemma generateDayObject_text (k : Z) (u : Dayjs.t)
    (minDate maxDate : Utils.DateType) (cur : bool) :
  Utils.text (Utils.generateDayObject k u minDate maxDate cur)
  = JS.toString k.
Proof. reflexivity. Qed.

(** C1.  A cell on the calendar date of a bound can be disabled.  With
    the reference 2024-03-15 08:00, weeks that start on Sunday, no lower
    bound and the upper bound 2024-03-20 00:00, the cell of 2024-03-20
    (position 24) is on the date of [maximumDate], the "max selectable
    date" of the documentation of [generateDayObject], and it is
    disabled: it is compared at 08:00, the reference's time of day, which
    is after the bound.  The cell of the day before is not disabled, and
    neither is the cell of the 20th when the reference is at 00:00. *)
Theorem C1_cell_on_maximum_day_disabled :
  Dayjs.format (civil 2024 3 20 0 0) Utils.DATE_FORMAT = "2024-03-20"%string
  /\ nth_error (Utils.getMonthDays (civil 2024 3 15 8 0) true Utils.DT_absent
                  (Utils.DT_date (civil 2024 3 20 0 0)) 0) 24
     = Some (Some {| Utils.text := "20"; Utils.day := 20;
                     Utils.date := "2024-03-20"; Utils.disabled := true;
                     Utils.isCurrentMonth := true |})
  /\ nth_error (Utils.getMonthDays (civil 2024 3 15 8 0) true Utils.DT_absent
                  (Utils.DT_date (civil 2024 3 20 0 0)) 0) 23
     = Some (Some {| Utils.text := "19"; Utils.day := 19;
                     Utils.date := "2024-03-19"; Utils.disabled := false;
                     Utils.isCurrentMonth := true |})
  /\ nth_error (Utils.getMonthDays (civil 2024 3 15 0 0) true Utils.DT_absent
                  (Utils.DT_date (civil 2024 3 20 0 0)) 0) 24
     = Some (Some {| Utils.text := "20"; Utils.day := 20;
                     Utils.date := "2024-03-20"; Utils.disabled := false;
                     Utils.isCurrentMonth := true |}).
Proof. repeat split; vm_compute; reflexivity. Qed.

(** ** The fields of a cell *)

(** C6.  Every cell of a grid that is not a placeholder is built from a
    date [u] of the month of its region (the month before the reference
    month for a leading cell, the reference month, the month after for a
    trailing cell): its [day] is the day of the month of [u], a day of that
    month; its [date] is [u] in the format ["YYYY-MM-DD"], and reads back
    as that year, that month and the cell's [day]; its [text] is the
    decimal text of its [day]; and it is marked as of the current month
    exactly in the region of the reference month. *)
Theorem C6_cell_fields
    (datetime : Dayjs.t) (displayFullDays : bool)
    (minimumDate maximumDate : Utils.DateType) (firstDayOfWeek : Z)
    (i : nat) (c : Utils.IDayObject) :
  nth_error (Utils.getMonthDays datetime displayFullDays minimumDate
               maximumDate firstDayOfWeek) i = Some (Some c) ->
  let r := region_of (Z.to_nat (leadOffset datetime firstDayOfWeek))
             (Z.to_nat (Dayjs.daysInMonth datetime)) i in
  let ym := region_month (year_month datetime) r in
  exists u : Dayjs.t,
    year_month u = ym
    /\ Utils.day c = Dayjs.date u
    /\ 1 <= Utils.day c <= days_in ym
    /\ Utils.date c = Dayjs.format u Utils.DATE_FORMAT
    /\ Utils.text c = JS.toString (Utils.day c)
    /\ read_date_text (Utils.date c) = Some (fst ym, snd ym, Utils.day c)
    /\ Utils.isCurrentMonth c = region_current r.
Proof.
  intros Hnth.
  destruct (grid_cell_at _ _ _ _ _ _ _ Hnth) as (k & Hk & Hm & Hc).
  destruct (cell_underlying _ _ _ _ _ _ _ Hm Hk (time_of_day_range datetime) Hc)
    as (Hgen & Hym & Hdate & Htime).
  cbv zeta.
  match type of Hgen with
  | c = Utils.generateDayObject _ ?u _ _ _ => exists u
  end.
  rewrite Hdate, Hgen.
  rewrite generateDayObject_isCurrentMonth, generateDayObject_date,
    generateDayObject_day_field, generateDayObject_text.
  split; [exact Hym | ].
  repeat (split; [reflexivity || exact Hk | ]).
  split; [ | reflexivity].
  rewrite format_DATE_FORMAT, Hym, Hdate.
  apply read_date_text_date_text; [exact Hm | ].
  pose proof (days_in_range
                (region_month (year_month datetime)
                   (region_of (Z.to_nat (leadOffset datetime firstDayOfWeek))
                      (Z.to_nat (Dayjs.daysInMonth datetime)) i))).
  lia.
Qed.

(** C6 at work: the first cell of the full grid of February 2024, with
    weeks that start on Sunday, is the 28th of January. *)
Lemma C6_cell_fields_witness :
  exists u : Dayjs.t,
    year_month u = (2024, 0)
    /\ 28 = Dayjs.date u
    /\ "2024-01-28"%string = Dayjs.format u Utils.DATE_FORMAT
    /\ read_date_text "2024-01-28" = Some (2024, 0, 28).
Proof.
  destruct (C6_cell_fields (civil 2024 2 1 0 0) true Utils.DT_absent
              Utils.DT_absent 0 0
              {| Utils.text := "28"; Utils.day := 28;
                 Utils.date := "2024-01-28"; Utils.disabled := false;
                 Utils.isCurrentMonth := false |})
    as (u & Hym & Hday & _ & Hdate & _ & Hread & _).
  - vm_compute. reflexivity.
  - exists u. repeat split; assumption.
Defined.

(** ** The weekday header *)

Section Rotation.

Context {A : Type}.

Lemma skipn_firstn_next (l : list A) (n : nat) :
  (n < List.length l)%nat ->
  exists x, skipn n l = x :: skipn (S n) l
            /\ firstn (S n) l = firstn n l ++ [x].
Proof.
  revert n. induction l as [ | y l IH]; intros n Hn; [cbn in Hn; lia | ].
  destruct n as [ | n].
  - exists y. split; reflexivity.
  - destruct (IH n) as (x & Hs & Hf); [cbn in Hn; lia | ].
    exists x. split.
    + exact Hs.
    + change (firstn (S (S n)) (y :: l)) with (y :: firstn (S n) l).
      now rewrite Hf.
Qed.

(** Rotating to the left by [n] moves the first [n] elements to the
    end. *)
Lemma rotate_left_skipn_firstn (l : list A) (n : nat) :
  (n <= List.length l)%nat -> rotate_left n l = skipn n l ++ firstn n l.
Proof.
  induction n as [ | n IH]; intros Hn.
  - cbn. now rewrite app_nil_r.
  - change (rotate_left (S n) l) with (rotate1 (rotate_left n l)).
    rewrite IH by lia.
    destruct (skipn_firstn_next l n) as (x & Hs & Hf); [lia | ].
    rewrite Hs, Hf, <- List.app_comm_cons. unfold rotate1.
    now rewrite <- List.app_assoc.
Qed.

Lemma slice_to_end (l : list A) (n : nat) :
  JS.slice l (Z.of_nat n) (Z.of_nat (List.length l)) = skipn n l.
Proof.
  unfold JS.slice. rewrite !Nat2Z.id.
  apply firstn_all2. rewrite length_skipn. lia.
Qed.

Lemma slice_from_start (l : list A) (n : nat) :
  JS.slice l 0 (Z.of_nat n) = firstn n l.
Proof.
  unfold JS.slice. rewrite Nat2Z.id. cbn [Z.to_nat skipn].
  now rewrite Nat.sub_0_r.
Qed.

End Rotation.

(** C7.  For a list of seven minimal weekday names and a first day of
    the week from 0 to 6, [getWeekdaysMin] is the list rotated to the left
    by that many positions, and it is the list itself when the first day
    is 0; [getWeekdays] and [getWeekdaysShort] take no first day and are
    the locale's lists as they are. *)
Theorem C7_weekdays_rotation (l : Utils.Locale) (firstDayOfWeek : Z) :
  List.length (Utils.weekdaysMin l) = 7%nat ->
  0 <= firstDayOfWeek <= 6 ->
  Utils.getWeekdaysMin l firstDayOfWeek
  = rotate_left (Z.to_nat firstDayOfWeek) (Utils.weekdaysMin l)
  /\ (firstDayOfWeek = 0 ->
      Utils.getWeekdaysMin l firstDayOfWeek = Utils.weekdaysMin l)
  /\ Utils.getWeekdays l = Utils.weekdays l
  /\ Utils.getWeekdaysShort l = Utils.weekdaysShort l.
Proof.
  intros Hlen Hf. unfold Utils.getWeekdaysMin.
  split; [ | split; [intros ->; reflexivity | split; reflexivity]].
  rewrite Z.gtb_ltb. destruct (Z.ltb_spec 0 firstDayOfWeek) as [H | H].
  - rewrite rotate_left_skipn_firstn by lia.
    rewrite <- (Z2Nat.id firstDayOfWeek) at 1 2 by lia.
    now rewrite slice_to_end, slice_from_start.
  - replace firstDayOfWeek with 0 by lia. reflexivity.
Qed.

(** C7 at work: the initials rotated by 2. *)
Lemma C7_weekdays_rotation_witness :
  Utils.getWeekdaysMin initials 2
  = ["T"; "W"; "T"; "F"; "S"; "S"; "M"]%string.
Proof.
  rewrite (proj1 (C7_weekdays_rotation initials 2 eq_refl ltac:(lia))).
  reflexivity.
Defined.

(** ** Dates on the same day *)

(** C8, as the code has it.  [areDatesOnSameDay] is [false] whenever one
    of its arguments is falsy: absent ([null], [undefined]), and also the
    number 0; for two truthy arguments it is [true] exactly when the two
    dates have the same text in the format ["YYYY-MM-DD"]. *)
Theorem C8_same_day (a b : Utils.DateType) :
  (Utils.truthy a = false \/ Utils.truthy b = false ->
   Utils.areDatesOnSameDay a b = false)
  /\ (a = Utils.DT_absent \/ b = Utils.DT_absent ->
      Utils.areDatesOnSameDay a b = false)
  /\ (Utils.truthy a = true -> Utils.truthy b = true ->
      exists da db,
        Utils.dayjs a = Some da /\ Utils.dayjs b = Some db
        /\ (Utils.areDatesOnSameDay a b = true <->
            Dayjs.format da Utils.DATE_FORMAT
            = Dayjs.format db Utils.DATE_FORMAT)).
Proof.
  unfold Utils.areDatesOnSameDay. repeat split.
  - intros [-> | ->]; [reflexivity | ].
    now rewrite orb_true_r.
  - intros [-> | ->]; [reflexivity | ].
    cbn [Utils.truthy negb]. now rewrite orb_true_r.
  - intros Ha Hb. rewrite Ha, Hb. cbn [negb orb].
    destruct a as [ | n | da]; [discriminate Ha | | ];
      (destruct b as [ | m | db]; [discriminate Hb | | ]);
      cbn [Utils.dayjs]; do 2 eexists;
      (split; [reflexivity | split; [reflexivity | apply String.eqb_eq]]).
Qed.

(** C8 at work: a date object and a number of milliseconds, both on
    2024-03-10. *)
Lemma C8_same_day_witness :
  Utils.areDatesOnSameDay (Utils.DT_date (civil 2024 3 10 8 0))
    (Utils.DT_number 1710111600000) = true.
Proof.
  destruct (proj2 (proj2 (C8_same_day (Utils.DT_date (civil 2024 3 10 8 0))
                            (Utils.DT_number 1710111600000)))
              eq_refl eq_refl) as (da & db & Ha & Hb & Hiff).
  apply Hiff.
  injection Ha as <-. injection Hb as <-.
  vm_compute. reflexivity.
Defined.

(** C8 as stated fails: the number 0 is a date, 1970-01-01, and it is
    not absent; two of them have the same text, and [areDatesOnSameDay]
    is [false] for them. *)
Lemma C8_counterexample :
  ~ (forall (a b : Utils.DateType) (da db : Dayjs.t),
        Utils.dayjs a = Some da -> Utils.dayjs b = Some db ->
        (Utils.areDatesOnSameDay a b = true <->
         Dayjs.format da Utils.DATE_FORMAT
         = Dayjs.format db Utils.DATE_FORMAT)).
Proof.
  intros H.
  specialize (H (Utils.DT_number 0) (Utils.DT_number 0)
                (Dayjs.wrap 0) (Dayjs.wrap 0) eq_refl eq_refl).
  destruct H as [_ H]. specialize (H eq_refl).
  vm_compute in H. discriminate H.
Qed.

(** ** The year pager *)

Section Years.

Lemma Array_from_consecutive (n a : Z) :
  JS.Array_from n (fun i => a + i) = consecutive a (Z.to_nat n).
Proof. reflexivity. Qed.

(** What [getYearRange] returns: consecutive years from the year of
    [minDate], or from 0 when that year is negative; ten of them when
    the year read in [maxDate] is more than twelve years later, and up to
    that year otherwise (none when it is earlier).  The year read in
    [maxDate] is the number [parseInt] reads in its ["YYYY"] text
    ([year_read]). *)
Lemma getYearRange_years (_year : Z) (maxDate minDate : Dayjs.t) :
  let startYear := Z.max 0 (Dayjs.year minDate) in
  let endYear := year_read (Dayjs.year maxDate) in
  Utils.getYearRange _year maxDate minDate
  = consecutive startYear
      (Z.to_nat (if endYear - startYear >? 12 then 10
                 else endYear - startYear + 1)).
Proof.
  cbv zeta. unfold Utils.getYearRange.
  rewrite !format_YYYY, !parseInt_YYYY.
  replace (if year_read (Dayjs.year minDate) <? 0 then 0
           else year_read (Dayjs.year minDate))
    with (Z.max 0 (Dayjs.year minDate)).
  - apply Array_from_consecutive.
  - unfold year_read.
    destruct (Z.ltb_spec (-100) (Dayjs.year minDate));
      destruct (Z.ltb_spec (Dayjs.year minDate) 0); cbn [andb];
      try reflexivity; try lia;
      match goal with
      | |- context [?x <? 0] => destruct (Z.ltb_spec x 0); lia
      end.
Qed.

Lemma year_read_year (y : Z) : y <= -100 \/ 0 <= y -> year_read y = y.
Proof.
  unfold year_read. intros H.
  destruct (Z.ltb_spec (-100) y), (Z.ltb_spec y 0); cbn [andb]; lia.
Qed.

End Years.

(** C5 on the code: for a [maxDate] and a [minDate] in the year -1 the
    start year is 0 and the year of [maxDate] is -1, one less; the code
    reads the year in the text [format('YYYY')], which is ["00-1"] for the
    year -1, reads 0 in it, and returns the year 0. *)
Theorem C5_year_read_from_text :
  let maxDate := civil (-1) 6 15 0 0 in
  let minDate := civil (-1) 6 15 0 0 in
  Utils.getDateYear maxDate = -1
  /\ Utils.getDateYear minDate = -1
  /\ Dayjs.format maxDate "YYYY" = "00-1"%string
  /\ JS.parseInt "00-1" = Some 0
  /\ Utils.getYearRange 0 maxDate minDate = [0].
Proof. cbv zeta. repeat split; vm_compute; reflexivity. Qed.

(** C9 on the code: [maxDate] in the year -5 and [minDate] in the year
    -10.  The year of [maxDate] is less than the start year, 0, and the
    result is not empty. *)
Theorem C9_earlier_maxDate_not_empty :
  let maxDate := civil (-5) 6 15 0 0 in
  let minDate := civil (-10) 6 15 0 0 in
  Utils.getDateYear maxDate = -5
  /\ Utils.getDateYear minDate = -10
  /\ Utils.getDateYear maxDate < Z.max 0 (Utils.getDateYear minDate)
  /\ Utils.getYearRange 0 maxDate minDate = [0].
Proof.
  cbv zeta. repeat split; vm_compute; reflexivity.
Qed.

(** * Further properties of [utils.ts] *)

(** ** The year pager, on every input *)

(** X1.  [getYearRange] returns consecutive ascending years that start at
    the year of [minDate], or at 0 when that year is negative: ten of
    them when the year read in [maxDate] is more than twelve years after
    the start, and otherwise the years up to the year read in [maxDate],
    none when that is before the start.  The year read in [maxDate] is
    its calendar year, except that the years -99 to -1 read as 0. *)
Theorem X1_year_range (_year : Z) (maxDate minDate : Dayjs.t) :
  let startYear := Z.max 0 (Utils.getDateYear minDate) in
  let endYear := year_read (Utils.getDateYear maxDate) in
  Utils.getYearRange _year maxDate minDate
  = consecutive startYear
      (Z.to_nat (if endYear - startYear >? 12 then Utils.YEAR_PAGE_SIZE
                 else endYear - startYear + 1))
  /\ (Utils.getDateYear maxDate <= -100 \/ 0 <= Utils.getDateYear maxDate ->
      endYear = Utils.getDateYear maxDate).
Proof.
  cbv zeta. split.
  - apply getYearRange_years.
  - apply year_read_year.
Qed.

(** X2.  A page of years never has more than thirteen years, and never
    a negative year. *)
Theorem X2_year_range_bounded (_year : Z) (maxDate minDate : Dayjs.t) :
  (List.length (Utils.getYearRange _year maxDate minDate) <= 13)%nat
  /\ Forall (fun y => 0 <= y) (Utils.getYearRange _year maxDate minDate).
Proof.
  pose proof (getYearRange_years _year maxDate minDate) as H.
  cbv zeta in H. rewrite H. clear H. split.
  - rewrite consecutive_length.
    destruct (Z.gtb_spec
                (year_read (Dayjs.year maxDate) - Z.max 0 (Dayjs.year minDate))
                12); lia.
  - apply Forall_forall. intros y Hy. apply consecutive_In in Hy. lia.
Qed.

(** X3.  When the year of [minDate] is not negative and the year of
    [maxDate] is from that year to twelve years later, the page is
    exactly the years from the one to the other, both included. *)
Theorem X3_year_range_reaches_both_ends
    (_year : Z) (maxDate minDate : Dayjs.t) :
  0 <= Utils.getDateYear minDate ->
  Utils.getDateYear minDate <= Utils.getDateYear maxDate ->
  Utils.getDateYear maxDate <= Utils.getDateYear minDate + 12 ->
  forall y,
    In y (Utils.getYearRange _year maxDate minDate)
    <-> Utils.getDateYear minDate <= y <= Utils.getDateYear maxDate.
Proof.
  unfold Utils.getDateYear. intros Hmin Hle Hspan y.
  pose proof (getYearRange_years _year maxDate minDate) as H.
  cbv zeta in H. rewrite H. clear H.
  rewrite year_read_year by lia. rewrite consecutive_In.
  destruct (Z.gtb_spec (Dayjs.year maxDate - Z.max 0 (Dayjs.year minDate)) 12);
    lia.
Qed.

(** X3 at work: the years 2000 to 2005. *)
Lemma X3_year_range_reaches_both_ends_witness :
  In 2005 (Utils.getYearRange 0 (civil 2005 1 1 0 0) (civil 2000 1 1 0 0))
  <-> 2000 <= 2005 <= 2005.
Proof.
  apply (X3_year_range_reaches_both_ends 0 (civil 2005 1 1 0 0)
           (civil 2000 1 1 0 0));
    vm_compute; discriminate.
Defined.

(** X4.  When the year of [maxDate] is not negative and more than twelve
    years after the start year, the page is the ten years from the start
    year on, and the year of [maxDate] is not in it. *)
Theorem X4_year_range_truncated (_year : Z) (maxDate minDate : Dayjs.t) :
  let startYear := Z.max 0 (Utils.getDateYear minDate) in
  Utils.getDateYear maxDate - startYear > 12 ->
  Utils.getYearRange _year maxDate minDate = consecutive startYear 10
  /\ ~ In (Utils.getDateYear maxDate)
         (Utils.getYearRange _year maxDate minDate).
Proof.
  unfold Utils.getDateYear. cbv zeta. intros Hspan.
  pose proof (getYearRange_years _year maxDate minDate) as H.
  cbv zeta in H. rewrite H. clear H.
  rewrite year_read_year by lia.
  destruct (Z.gtb_spec (Dayjs.year maxDate - Z.max 0 (Dayjs.year minDate)) 12);
    [ | lia].
  split; [reflexivity | ].
  change (Z.to_nat 10) with 10%nat. rewrite consecutive_In. lia.
Qed.

(** X4 at work: from 2000, with 2030 as the last year. *)
Lemma X4_year_range_truncated_witness :
  Utils.getYearRange 0 (civil 2030 1 1 0 0) (civil 2000 1 1 0 0)
  = [2000; 2001; 2002; 2003; 2004; 2005; 2006; 2007; 2008; 2009].
Proof.
  rewrite (proj1 (X4_year_range_truncated 0 (civil 2030 1 1 0 0)
                    (civil 2000 1 1 0 0) eq_refl)).
  vm_compute. reflexivity.
Defined.

(** ** Dates on the same day, by the calendar *)

Section SameDay.

Import ES.

(** The calendar fields of a time value are those of its day. *)
Lemma fields_of_Day (s t : Z) :
  Day s = Day t ->
  YearFromTime s = YearFromTime t
  /\ MonthFromTime s = MonthFromTime t
  /\ DateFromTime s = DateFromTime t.
Proof.
  unfold DateFromTime, MonthFromTime, DayWithinYear, YearFromTime.
  intros ->. repeat split.
Qed.

Lemma Day_of_fields (s t : Z) :
  YearFromTime s = YearFromTime t -> MonthFromTime s = MonthFromTime t ->
  DateFromTime s = DateFromTime t -> Day s = Day t.
Proof.
  intros Hy Hm Hd.
  rewrite <- (MakeDay_fields s), <- (MakeDay_fields t). congruence.
Qed.

(** Two dates have the same text in the format ["YYYY-MM-DD"] exactly
    when they have the same year, month and day of the month. *)
Lemma format_DATE_FORMAT_inj (da db : Dayjs.t) :
  Dayjs.format da Utils.DATE_FORMAT = Dayjs.format db Utils.DATE_FORMAT
  <-> year_month da = year_month db /\ Dayjs.date da = Dayjs.date db.
Proof.
  rewrite !format_DATE_FORMAT. split.
  - intros H. apply (f_equal read_date_text) in H.
    pose proof (date_range da) as Ha. pose proof (date_range db) as Hb.
    pose proof (DaysInMonth_range (Dayjs.year da) (Dayjs.month da)).
    pose proof (DaysInMonth_range (Dayjs.year db) (Dayjs.month db)).
    rewrite !read_date_text_date_text in H
      by (try apply year_month_range; lia).
    injection H as Hy Hm Hd.
    split; [ | exact Hd].
    unfold year_month. congruence.
  - intros [-> ->]. reflexivity.
Qed.

End SameDay.

(** X5.  For two truthy arguments, [areDatesOnSameDay] is [true] exactly
    when the two dates have the same year, the same month and the same
    day of the month, that is when they fall on the same calendar day,
    whatever their times of day. *)
Theorem X5_same_day_is_same_calendar_day
    (a b : Utils.DateType) (da db : Dayjs.t) :
  Utils.truthy a = true -> Utils.truthy b = true ->
  Utils.dayjs a = Some da -> Utils.dayjs b = Some db ->
  (Utils.areDatesOnSameDay a b = true <->
   Dayjs.year da = Dayjs.year db /\ Dayjs.month da = Dayjs.month db
   /\ Dayjs.date da = Dayjs.date db)
  /\ (Utils.areDatesOnSameDay a b = true <->
      ES.Day (Dayjs.valueOf da) = ES.Day (Dayjs.valueOf db)).
Proof.
  intros Ha Hb Hda Hdb.
  assert (Hs : Utils.areDatesOnSameDay a b = true <->
               year_month da = year_month db /\ Dayjs.date da = Dayjs.date db).
  { unfold Utils.areDatesOnSameDay. rewrite Ha, Hb, Hda, Hdb.
    cbn [negb orb]. rewrite String.eqb_eq. apply format_DATE_FORMAT_inj. }
  rewrite Hs. unfold year_month. split.
  - split.
    + intros [[= Hy Hm] Hd]. auto.
    + intros (Hy & Hm & Hd). split; congruence.
  - split.
    + intros [[= Hy Hm] Hd]. now apply Day_of_fields.
    + intros H. apply fields_of_Day in H. destruct H as (Hy & Hm & Hd).
      unfold Dayjs.year, Dayjs.month, Dayjs.date. split; congruence.
Qed.

(** X5 at work: 2024-03-10 at 08:00 and at 23:00. *)
Lemma X5_same_day_is_same_calendar_day_witness :
  Utils.areDatesOnSameDay (Utils.DT_date (civil 2024 3 10 8 0))
    (Utils.DT_number 1710111600000) = true
  <-> ES.Day (Dayjs.valueOf (civil 2024 3 10 8 0)) = ES.Day 1710111600000.
Proof.
  exact (proj2 (X5_same_day_is_same_calendar_day
                  (Utils.DT_date (civil 2024 3 10 8 0))
                  (Utils.DT_number 1710111600000)
                  (civil 2024 3 10 8 0) (Dayjs.wrap 1710111600000)
                  eq_refl eq_refl eq_refl eq_refl)).
Defined.

(** X6.  [areDatesOnSameDay] does not depend on the order of its
    arguments; a value is on the same day as itself exactly when it is
    truthy; and being on the same day carries over from [a], [b] and
    [b], [c] to [a], [c]. *)
Theorem X6_same_day_equivalence (a b c : Utils.DateType) :
  Utils.areDatesOnSameDay a b = Utils.areDatesOnSameDay b a
  /\ Utils.areDatesOnSameDay a a = Utils.truthy a
  /\ (Utils.areDatesOnSameDay a b = true ->
      Utils.areDatesOnSameDay b c = true ->
      Utils.areDatesOnSameDay a c = true).
Proof.
  unfold Utils.areDatesOnSameDay. repeat split.
  - rewrite orb_comm.
    destruct (negb (Utils.truthy b) || negb (Utils.truthy a));
      [reflexivity | ].
    destruct (Utils.dayjs a), (Utils.dayjs b); try reflexivity.
    apply String.eqb_sym.
  - destruct a as [ | n | d]; cbn [Utils.truthy Utils.dayjs negb orb];
      [reflexivity | | apply String.eqb_refl].
    destruct (n =? 0); cbn [negb orb]; [reflexivity | apply String.eqb_refl].
  - destruct (Utils.truthy a), (Utils.truthy b), (Utils.truthy c);
      cbn [negb orb]; try discriminate.
    destruct (Utils.dayjs a), (Utils.dayjs b), (Utils.dayjs c);
      try discriminate.
    rewrite !String.eqb_eq. congruence.
Qed.

(** ** Parsed dates *)

Section Parsed.

Import ES.

Lemma HourFromTime_MakeDate (day h mi s ms : Z) :
  0 <= h <= 23 -> 0 <= mi <= 59 -> 0 <= s <= 59 -> 0 <= ms <= 999 ->
  HourFromTime (MakeDate day (MakeTime h mi s ms)) = h.
Proof.
  unfold HourFromTime, MakeDate, MakeTime, msPerDay, msPerHour, msPerMinute,
    msPerSecond.
  intros Hh Hmi Hs Hms.
  replace (day * 86400000 + (h * 3600000 + mi * 60000 + s * 1000 + ms))
    with ((mi * 60000 + s * 1000 + ms) + (day * 24 + h) * 3600000) by lia.
  rewrite Z.div_add by discriminate.
  rewrite (Z.div_small (mi * 60000 + s * 1000 + ms)) by lia.
  rewrite Z.add_0_l, Z.add_comm, Z.mod_add by discriminate.
  apply Z.mod_small. lia.
Qed.

Lemma MinFromTime_MakeDate (day h mi s ms : Z) :
  0 <= h <= 23 -> 0 <= mi <= 59 -> 0 <= s <= 59 -> 0 <= ms <= 999 ->
  MinFromTime (MakeDate day (MakeTime h mi s ms)) = mi.
Proof.
  unfold MinFromTime, MakeDate, MakeTime, msPerDay, msPerHour, msPerMinute,
    msPerSecond.
  intros Hh Hmi Hs Hms.
  replace (day * 86400000 + (h * 3600000 + mi * 60000 + s * 1000 + ms))
    with ((s * 1000 + ms) + ((day * 24 + h) * 60 + mi) * 60000) by lia.
  rewrite Z.div_add by discriminate.
  rewrite (Z.div_small (s * 1000 + ms)) by lia.
  rewrite Z.add_0_l, Z.add_comm, Z.mod_add by discriminate.
  apply Z.mod_small. lia.
Qed.

Lemma MakeTime_range (h mi s ms : Z) :
  0 <= h <= 23 -> 0 <= mi <= 59 -> 0 <= s <= 59 -> 0 <= ms <= 999 ->
  0 <= MakeTime h mi s ms < msPerDay.
Proof.
  unfold MakeTime, msPerDay, msPerHour, msPerMinute, msPerSecond. lia.
Qed.

End Parsed.

(** X8.  [getParsedDate] gives back the fields a date was built from:
    for the date of day [d] of month [m] of year [y] at [h]:[mi]:[s].[ms]
    (what [new Date(y, m, d, h, mi, s, ms)] is for a year outside 0 to
    99), it returns the year [y],
    the month [m], the hour [h] and the minute [mi]. *)
Theorem X8_parsed_date_of_fields (y m d h mi s ms : Z) :
  0 <= m <= 11 -> 1 <= d <= days_in (y, m) ->
  0 <= h <= 23 -> 0 <= mi <= 59 -> 0 <= s <= 59 -> 0 <= ms <= 999 ->
  Utils.getParsedDate (on_day y m d (ES.MakeTime h mi s ms))
  = {| Utils.year := y; Utils.month := m; Utils.hour := h;
       Utils.minute := mi |}.
Proof.
  intros Hm Hd Hh Hmi Hs Hms. unfold days_in in Hd. cbn [fst snd] in Hd.
  pose proof (MakeTime_range h mi s ms Hh Hmi Hs Hms) as Ht.
  unfold Utils.getParsedDate.
  rewrite year_on_day, month_on_day by assumption.
  unfold Dayjs.hour, Dayjs.minute, on_day. cbn [Dayjs.valueOf].
  now rewrite HourFromTime_MakeDate, MinFromTime_MakeDate.
Qed.

(** X8 at work: 2024-02-29 13:45:10.250. *)
Lemma X8_parsed_date_of_fields_witness :
  Utils.getParsedDate (on_day 2024 1 29 (ES.MakeTime 13 45 10 250))
  = {| Utils.year := 2024; Utils.month := 1; Utils.hour := 13;
       Utils.minute := 45 |}.
Proof.
  apply X8_parsed_date_of_fields; vm_compute; split; discriminate.
Defined.

(** ** The days of the grid *)

Section GridDays.

Import ES.

Ltac some_eq H H' :=
  match type of H with
  | Some ?a = Some ?b => assert (H' : a = b) by congruence
  end.

Lemma MakeDay_linear (y m d : Z) : MakeDay y m d = MakeDay y m 1 + d - 1.
Proof. unfold MakeDay. lia. Qed.

Lemma Day_on_day (y m d time : Z) :
  0 <= time < msPerDay -> Day (Dayjs.valueOf (on_day y m d time)) = MakeDay y m d.
Proof. intros Ht. unfold on_day. cbn [Dayjs.valueOf]. now apply Day_MakeDate. Qed.

(** The first day of the month after a month comes right after its last
    day; likewise for the month before. *)
Lemma first_of_next_month (ym : Z * Z) :
  0 <= snd ym <= 11 ->
  MakeDay (fst (next_month ym)) (snd (next_month ym)) 1
  = MakeDay (fst ym) (snd ym) 1 + days_in ym.
Proof.
  intros Hm. rewrite <- shift_month_next by exact Hm.
  unfold shift_month, days_in. cbn [fst snd].
  rewrite <- MakeDay_month_carry.
  rewrite (MakeDay_linear _ (snd ym + 1) 1).
  pose proof (MakeDay_next_month_0 (fst ym) (snd ym) Hm) as H.
  rewrite (MakeDay_linear _ (snd ym + 1) 0) in H.
  rewrite (MakeDay_linear _ (snd ym) (DaysInMonth (fst ym) (snd ym))) in H.
  lia.
Qed.

Lemma next_prev_month (ym : Z * Z) :
  0 <= snd ym <= 11 -> next_month (prev_month ym) = ym.
Proof.
  destruct ym as [y m]. cbn [snd]. intros Hm. unfold prev_month.
  destruct (Z.eqb_spec m 0) as [-> | Hne]; unfold next_month.
  - cbn. f_equal. lia.
  - destruct (Z.eqb_spec (m - 1) 11); [lia | ]. f_equal. lia.
Qed.

Lemma first_of_prev_month (ym : Z * Z) :
  0 <= snd ym <= 11 ->
  MakeDay (fst ym) (snd ym) 1
  = MakeDay (fst (prev_month ym)) (snd (prev_month ym)) 1
    + days_in (prev_month ym).
Proof.
  intros Hm.
  rewrite <- (first_of_next_month (prev_month ym))
    by now apply prev_month_range.
  now rewrite next_prev_month.
Qed.

(** The number of the day the reference month starts on. *)
Lemma Day_set_date_1 (d : Dayjs.t) :
  Day (Dayjs.valueOf (Dayjs.set_date d 1))
  = MakeDay (fst (year_month d)) (snd (year_month d)) 1.
Proof.
  rewrite set_date_current. apply Day_on_day, time_of_day_range.
Qed.

(** Outside the year 0 the regions are in place. *)
Lemma region_shift_0 (ym : Z * Z) (r : region) :
  fst ym <> 0 -> 0 <= snd ym <= 11 -> region_shift ym r = 0.
Proof.
  intros Hy Hm. destruct r; cbn [region_shift]; [ | reflexivity | ].
  - destruct ym as [y m]. cbn [fst snd] in *. unfold prev_month.
    destruct (Z.eqb_spec m 0) as [-> | Hne].
    + destruct (Z.eq_dec (y - 1) 0) as [-> | Hy'].
      * rewrite month_length_year_0. cbn. reflexivity.
      * rewrite month_length_days_in by exact Hy'. lia.
    + rewrite month_length_days_in by exact Hy. lia.
  - rewrite month_length_days_in by exact Hy. lia.
Qed.

(** From one position to a later one the shift does not decrease. *)
Lemma region_shift_mono (ym : Z * Z) (lead days i j : nat) :
  (i <= j)%nat ->
  region_shift ym (region_of lead days i)
  <= region_shift ym (region_of lead days j).
Proof.
  intros Hij.
  pose proof (month_length_le ym) as Hc.
  pose proof (month_length_le (prev_month ym)) as Hp.
  unfold region_of.
  destruct (Nat.ltb_spec i lead), (Nat.ltb_spec j lead),
    (Nat.ltb_spec i (lead + days)), (Nat.ltb_spec j (lead + days));
    cbn [region_shift]; lia.
Qed.

(** The cell at a position of a grid is built from the date that many
    days after the first day the grid has room for (the first day of the
    reference month, less the lead offset), moved by the shift of its
    region. *)
Lemma grid_cell_day_shift (datetime : Dayjs.t) (full : bool)
    (minimumDate maximumDate : Utils.DateType) (firstDayOfWeek : Z)
    (i : nat) (c : Utils.IDayObject) :
  nth_error
    (Utils.getMonthDays datetime full minimumDate maximumDate firstDayOfWeek) i
  = Some (Some c) ->
  exists (u : Dayjs.t) (cur : bool),
    c = Utils.generateDayObject (Dayjs.date u) u minimumDate maximumDate cur
    /\ time_of_day u = time_of_day datetime
    /\ Day (Dayjs.valueOf u)
       = Day (Dayjs.valueOf (Dayjs.set_date datetime 1))
         - leadOffset datetime firstDayOfWeek + Z.of_nat i
         + region_shift (year_month datetime)
             (region_of (Z.to_nat (leadOffset datetime firstDayOfWeek))
                (Z.to_nat (Dayjs.daysInMonth datetime)) i).
Proof.
  intros Hnth.
  pose proof (leadOffset_range datetime firstDayOfWeek) as Hl.
  pose proof (year_month_range datetime) as Hm.
  pose proof (prev_month_range _ Hm) as Hpm.
  pose proof (next_month_range _ Hm) as Hnm.
  pose proof (month_length_range (year_month datetime)) as Hd.
  pose proof (month_length_range (prev_month (year_month datetime))) as Hp.
  pose proof (days_in_range (next_month (year_month datetime))) as Hn.
  pose proof (month_length_le (year_month datetime)) as Hd'.
  pose proof (month_length_le (prev_month (year_month datetime))) as Hp'.
  pose proof (grid_size_trailing
                (leadOffset datetime firstDayOfWeek
                 + month_length (year_month datetime))) as Ht.
  pose proof (time_of_day_range datetime) as Htod.
  pose proof (first_of_prev_month _ Hm) as Hfp.
  pose proof (first_of_next_month _ Hm) as Hfn.
  rewrite Day_set_date_1, daysInMonth_month_length.
  assert (Hcell : forall ym cur k n,
             0 <= snd ym <= 11 -> 1 <= k <= days_in ym ->
             Some c = cell (time_of_day datetime) minimumDate maximumDate
                        ym cur k ->
             MakeDay (fst ym) (snd ym) 1 + k - 1 = n ->
             exists (u : Dayjs.t) (cur : bool),
               c = Utils.generateDayObject (Dayjs.date u) u minimumDate
                     maximumDate cur
               /\ time_of_day u = time_of_day datetime
               /\ Day (Dayjs.valueOf u) = n).
  { intros ym cur k n Hym Hk Hc Hday.
    destruct (cell_underlying _ _ _ _ _ _ _ Hym Hk Htod Hc)
      as (Hgen & _ & Hdate & Htime).
    eexists. exists cur. rewrite Hdate.
    split; [exact Hgen | split; [exact Htime | ]].
    rewrite Day_on_day by exact Htod. rewrite MakeDay_linear. exact Hday. }
  unfold region_of.
  destruct full.
  - rewrite getMonthDays_full in Hnth.
    rewrite !nth_error_app, !length_map, !consecutive_length,
      !nth_error_cells in Hnth.
    destruct (Nat.ltb_spec i (Z.to_nat (leadOffset datetime firstDayOfWeek)))
      as [H1 | H1].
    + some_eq Hnth Hc. cbn [region_shift].
      refine (Hcell _ _ _ _ Hpm _ (eq_sym Hc) _); lia.
    + destruct (Nat.ltb_spec
                  (i - Z.to_nat (leadOffset datetime firstDayOfWeek))
                  (Z.to_nat (month_length (year_month datetime))))
        as [H2 | H2];
        destruct (Nat.ltb_spec i
                    (Z.to_nat (leadOffset datetime firstDayOfWeek)
                     + Z.to_nat (month_length (year_month datetime))))
          as [H3 | H3];
        try lia.
      * some_eq Hnth Hc. cbn [region_shift].
        refine (Hcell _ _ _ _ Hm _ (eq_sym Hc) _); lia.
      * match type of Hnth with
        | context [(?x <? ?y)%nat] => destruct (Nat.ltb_spec x y) as [H4 | H4]
        end; [ | discriminate Hnth].
        some_eq Hnth Hc. cbn [region_shift].
        refine (Hcell _ _ _ _ Hnm _ (eq_sym Hc) _); lia.
  - rewrite getMonthDays_blank in Hnth.
    rewrite nth_error_app, repeat_length, nth_error_cells in Hnth.
    destruct (Nat.ltb_spec i (Z.to_nat (leadOffset datetime firstDayOfWeek)))
      as [H1 | H1].
    + rewrite nth_error_repeat in Hnth by exact H1. discriminate Hnth.
    + destruct (Nat.ltb_spec
                  (i - Z.to_nat (leadOffset datetime firstDayOfWeek))
                  (Z.to_nat (month_length (year_month datetime))))
        as [H2 | H2];
        [ | discriminate Hnth].
      destruct (Nat.ltb_spec i
                  (Z.to_nat (leadOffset datetime firstDayOfWeek)
                   + Z.to_nat (month_length (year_month datetime))))
        as [H3 | H3]; [ | lia].
      some_eq Hnth Hc. cbn [region_shift].
      refine (Hcell _ _ _ _ Hm _ (eq_sym Hc) _); lia.
Qed.

(** For a reference date outside the year 0 the days of the grid are
    consecutive: the cell at a position is built from the date that many
    days after the first day the grid has room for. *)
Lemma grid_cell_day_number (datetime : Dayjs.t) (full : bool)
    (minimumDate maximumDate : Utils.DateType) (firstDayOfWeek : Z)
    (i : nat) (c : Utils.IDayObject) :
  Dayjs.year datetime <> 0 ->
  nth_error
    (Utils.getMonthDays datetime full minimumDate maximumDate firstDayOfWeek) i
  = Some (Some c) ->
  exists (u : Dayjs.t) (cur : bool),
    c = Utils.generateDayObject (Dayjs.date u) u minimumDate maximumDate cur
    /\ time_of_day u = time_of_day datetime
    /\ Day (Dayjs.valueOf u)
       = Day (Dayjs.valueOf (Dayjs.set_date datetime 1))
         - leadOffset datetime firstDayOfWeek + Z.of_nat i.
Proof.
  intros Hy Hnth.
  destruct (grid_cell_day_shift _ _ _ _ _ _ _ Hnth)
    as (u & cur & Hgen & Htime & Hday).
  rewrite region_shift_0, Z.add_0_r in Hday
    by (exact Hy || apply year_month_range).
  exists u, cur. repeat split; assumption.
Qed.

(** Instants at one time of day are ordered as their days. *)
Lemma same_time_le (s t : Z) :
  TimeWithinDay s = TimeWithinDay t -> Day s <= Day t -> s <= t.
Proof.
  intros Htime Hday.
  destruct (Z.le_gt_cases s t) as [H | H]; [exact H | ].
  apply (same_time_compare t s) in H; [lia | congruence].
Qed.

End GridDays.

(** X10.  The number of leading positions of a grid, which
    [getMonthDays] computes as [date.date(1 - firstDayOfWeek).day() % 7],
    is the weekday of the first day of the reference month counted from
    [firstDayOfWeek]: their difference modulo 7, a number from 0 to 6,
    whatever integer [firstDayOfWeek] is. *)
Theorem X10_lead_offset_is_weekday_of_first (d : Dayjs.t) (firstDayOfWeek : Z) :
  leadOffset d firstDayOfWeek
  = (Dayjs.day (Dayjs.set_date d 1) - firstDayOfWeek) mod 7
  /\ 0 <= leadOffset d firstDayOfWeek <= 6
  /\ Dayjs.date (Dayjs.set_date d 1) = 1
  /\ year_month (Dayjs.set_date d 1) = year_month d.
Proof.
  split; [apply leadOffset_weekday | ].
  split; [apply leadOffset_range | ].
  pose proof (month_range d). pose proof (time_of_day_range d).
  pose proof (DaysInMonth_range (Dayjs.year d) (Dayjs.month d)).
  rewrite set_date_on_day. unfold year_month.
  rewrite year_on_day, month_on_day, date_on_day by lia.
  split; reflexivity.
Qed.

(** X11.  For a reference date outside the year 0 the cells of a grid
    show consecutive calendar days: the cell at position [i],
    placeholders counted, is built from the date that is
    [i - leadOffset] days after the first day of the reference month, at
    the time of day of the reference.  This holds with and without
    [displayFullDays].  (In the year 0 [daysInMonth()] counts 28 days in
    February, which has 29, and the grids of February and March leave
    the 29th out.) *)
Theorem X11_grid_shows_consecutive_days
    (datetime : Dayjs.t) (displayFullDays : bool)
    (minimumDate maximumDate : Utils.DateType) (firstDayOfWeek : Z)
    (i : nat) (c : Utils.IDayObject) :
  Dayjs.year datetime <> 0 ->
  nth_error (Utils.getMonthDays datetime displayFullDays minimumDate
               maximumDate firstDayOfWeek) i = Some (Some c) ->
  exists u : Dayjs.t,
    Utils.date c = Dayjs.format u Utils.DATE_FORMAT
    /\ Utils.day c = Dayjs.date u
    /\ time_of_day u = time_of_day datetime
    /\ ES.Day (Dayjs.valueOf u)
       = ES.Day (Dayjs.valueOf (Dayjs.set_date datetime 1))
         - leadOffset datetime firstDayOfWeek + Z.of_nat i.
Proof.
  intros Hy Hnth.
  destruct (grid_cell_day_number _ _ _ _ _ _ _ Hy Hnth)
    as (u & cur & Hgen & Htime & Hday).
  exists u. rewrite Hgen at 1 2.
  rewrite generateDayObject_date, generateDayObject_day_field.
  repeat split; assumption.
Qed.

(** X11 at work: position 4 of the full grid of February 2024 is the first
    of February. *)
Lemma X11_grid_shows_consecutive_days_witness :
  exists u : Dayjs.t,
    "2024-02-01"%string = Dayjs.format u Utils.DATE_FORMAT
    /\ ES.Day (Dayjs.valueOf u)
       = ES.Day (Dayjs.valueOf (Dayjs.set_date (civil 2024 2 1 0 0) 1))
         - leadOffset (civil 2024 2 1 0 0) 0 + 4.
Proof.
  destruct (X11_grid_shows_consecutive_days (civil 2024 2 1 0 0) true
              Utils.DT_absent Utils.DT_absent 0 4
              {| Utils.text := "1"; Utils.day := 1;
                 Utils.date := "2024-02-01"; Utils.disabled := false;
                 Utils.isCurrentMonth := true |})
    as (u & Hdate & _ & _ & Hday).
  - vm_compute. discriminate.
  - vm_compute. reflexivity.
  - exists u. split; assumption.
Defined.

(** X12.  For a reference date outside the year 0 the grid is aligned on
    weeks: the cell at position [i] falls on the weekday
    [(firstDayOfWeek + i) mod 7], so each of the seven columns holds one
    weekday and the first column holds [firstDayOfWeek]. *)
Theorem X12_grid_columns_are_weekdays
    (datetime : Dayjs.t) (displayFullDays : bool)
    (minimumDate maximumDate : Utils.DateType) (firstDayOfWeek : Z)
    (i : nat) (c : Utils.IDayObject) :
  Dayjs.year datetime <> 0 ->
  nth_error (Utils.getMonthDays datetime displayFullDays minimumDate
               maximumDate firstDayOfWeek) i = Some (Some c) ->
  exists u : Dayjs.t,
    Utils.date c = Dayjs.format u Utils.DATE_FORMAT
    /\ Dayjs.day u = (firstDayOfWeek + Z.of_nat i) mod 7.
Proof.
  intros Hy Hnth.
  destruct (grid_cell_day_number _ _ _ _ _ _ _ Hy Hnth)
    as (u & cur & Hgen & Htime & Hday).
  exists u. rewrite Hgen at 1. rewrite generateDayObject_date.
  split; [reflexivity | ].
  unfold Dayjs.day, ES.WeekDay. rewrite Hday, leadOffset_weekday.
  unfold Dayjs.day, ES.WeekDay.
  set (first := ES.Day (Dayjs.valueOf (Dayjs.set_date datetime 1))).
  clearbody first. Z.div_mod_to_equations. lia.
Qed.

(** X12 at work: the first of February 2024, at position 4 of a grid
    whose weeks start on Sunday, is a Thursday. *)
Lemma X12_grid_columns_are_weekdays_witness :
  exists u : Dayjs.t,
    "2024-02-01"%string = Dayjs.format u Utils.DATE_FORMAT
    /\ Dayjs.day u = 4.
Proof.
  destruct (X12_grid_columns_are_weekdays (civil 2024 2 1 0 0) true
              Utils.DT_absent Utils.DT_absent 0 4
              {| Utils.text := "1"; Utils.day := 1;
                 Utils.date := "2024-02-01"; Utils.disabled := false;
                 Utils.isCurrentMonth := true |})
    as (u & Hdate & Hday).
  - vm_compute. discriminate.
  - vm_compute. reflexivity.
  - exists u. split; assumption.
Defined.

(** The name at a position of the rotated list of seven names. *)
Lemma getWeekdaysMin_nth (l : Utils.Locale) (f : Z) (j : nat) :
  List.length (Utils.weekdaysMin l) = 7%nat -> 0 <= f <= 6 -> (j < 7)%nat ->
  nth_error (Utils.getWeekdaysMin l f) j
  = nth_error (Utils.weekdaysMin l) (Z.to_nat ((f + Z.of_nat j) mod 7)).
Proof.
  intros Hlen Hf Hj. unfold Utils.getWeekdaysMin.
  destruct (Utils.weekdaysMin l)
    as [ | a0 [ | a1 [ | a2 [ | a3 [ | a4 [ | a5 [ | a6 [ | ? ?]]]]]]]];
    try discriminate Hlen.
  assert (f = 0 \/ f = 1 \/ f = 2 \/ f = 3 \/ f = 4 \/ f = 5 \/ f = 6)
    as Hc by lia.
  assert (j = 0 \/ j = 1 \/ j = 2 \/ j = 3 \/ j = 4 \/ j = 5 \/ j = 6)%nat
    as Hd by lia.
  repeat (destruct Hd as [-> | Hd]); try subst j;
    repeat (destruct Hc as [-> | Hc]); try subst f; reflexivity.
Qed.

(** X13.  The header fits the grid: with seven minimal weekday names, a
    first day of the week from 0 to 6 and a reference date outside the
    year 0, the name [getWeekdaysMin] puts over the column of a cell is
    the name of the weekday that cell falls on. *)
Theorem X13_header_names_the_columns
    (l : Utils.Locale) (datetime : Dayjs.t) (displayFullDays : bool)
    (minimumDate maximumDate : Utils.DateType) (firstDayOfWeek : Z)
    (i : nat) (c : Utils.IDayObject) :
  List.length (Utils.weekdaysMin l) = 7%nat ->
  0 <= firstDayOfWeek <= 6 ->
  Dayjs.year datetime <> 0 ->
  nth_error (Utils.getMonthDays datetime displayFullDays minimumDate
               maximumDate firstDayOfWeek) i = Some (Some c) ->
  exists u : Dayjs.t,
    Utils.date c = Dayjs.format u Utils.DATE_FORMAT
    /\ nth_error (Utils.getWeekdaysMin l firstDayOfWeek) (i mod 7)
       = nth_error (Utils.weekdaysMin l) (Z.to_nat (Dayjs.day u)).
Proof.
  intros Hlen Hf Hy Hnth.
  destruct (grid_cell_day_number _ _ _ _ _ _ _ Hy Hnth)
    as (u & cur & Hgen & Htime & Hday).
  exists u. rewrite Hgen at 1. rewrite generateDayObject_date.
  split; [reflexivity | ].
  pose proof (Nat.mod_upper_bound i 7 ltac:(discriminate)) as Hj.
  rewrite getWeekdaysMin_nth by assumption.
  f_equal. f_equal.
  unfold Dayjs.day, ES.WeekDay. rewrite Hday, leadOffset_weekday.
  unfold Dayjs.day, ES.WeekDay.
  rewrite Nat2Z.inj_mod. change (Z.of_nat 7) with 7.
  set (first := ES.Day (Dayjs.valueOf (Dayjs.set_date datetime 1))).
  clearbody first. Z.div_mod_to_equations. lia.
Qed.

(** X13 at work: the English names, weeks that start on Monday, and the
    first of February 2024 at position 3. *)
Lemma X13_header_names_the_columns_witness :
  exists u : Dayjs.t,
    "2024-02-01"%string = Dayjs.format u Utils.DATE_FORMAT
    /\ nth_error (Utils.getWeekdaysMin en 1) (3 mod 7)
       = nth_error (Utils.weekdaysMin en) (Z.to_nat (Dayjs.day u)).
Proof.
  apply (X13_header_names_the_columns en (civil 2024 2 1 0 0) true
           Utils.DT_absent Utils.DT_absent 1 3
           {| Utils.text := "1"; Utils.day := 1;
              Utils.date := "2024-02-01"; Utils.disabled := false;
              Utils.isCurrentMonth := true |}).
  - reflexivity.
  - lia.
  - vm_compute. discriminate.
  - vm_compute. reflexivity.
Defined.

(** X14.  Whatever integer [firstDayOfWeek] is and however many names the
    locale has, [getWeekdaysMin] returns the same names, each as many
    times as before, only in another order; and it returns the list
    unchanged when [firstDayOfWeek] is zero or negative, or at least the
    number of names. *)
Theorem X14_weekdays_min_keeps_the_names (l : Utils.Locale) (firstDayOfWeek : Z) :
  Permutation (Utils.getWeekdaysMin l firstDayOfWeek) (Utils.weekdaysMin l)
  /\ List.length (Utils.getWeekdaysMin l firstDayOfWeek)
     = List.length (Utils.weekdaysMin l)
  /\ (firstDayOfWeek <= 0
      \/ Z.of_nat (List.length (Utils.weekdaysMin l)) <= firstDayOfWeek ->
      Utils.getWeekdaysMin l firstDayOfWeek = Utils.weekdaysMin l).
Proof.
  assert (Hrot : 0 < firstDayOfWeek ->
                 Utils.getWeekdaysMin l firstDayOfWeek
                 = skipn (Z.to_nat firstDayOfWeek) (Utils.weekdaysMin l)
                   ++ firstn (Z.to_nat firstDayOfWeek) (Utils.weekdaysMin l)).
  { intros Hf. unfold Utils.getWeekdaysMin, JS.slice.
    rewrite Z.gtb_ltb. destruct (Z.ltb_spec 0 firstDayOfWeek); [ | lia].
    rewrite Nat2Z.id. cbn [Z.to_nat skipn]. rewrite Nat.sub_0_r.
    f_equal. apply firstn_all2. rewrite length_skipn. lia. }
  assert (Hperm : Permutation (Utils.getWeekdaysMin l firstDayOfWeek)
                    (Utils.weekdaysMin l)).
  { destruct (Z.lt_ge_cases 0 firstDayOfWeek) as [Hf | Hf].
    - rewrite (Hrot Hf).
      rewrite Permutation_app_comm, firstn_skipn. apply Permutation_refl.
    - unfold Utils.getWeekdaysMin. rewrite Z.gtb_ltb.
      destruct (Z.ltb_spec 0 firstDayOfWeek); [lia | apply Permutation_refl]. }
  split; [exact Hperm | ].
  split; [now apply Permutation_length | ].
  intros [Hf | Hf].
  - unfold Utils.getWeekdaysMin. rewrite Z.gtb_ltb.
    destruct (Z.ltb_spec 0 firstDayOfWeek); [lia | reflexivity].
  - destruct (Z.lt_ge_cases 0 firstDayOfWeek) as [Hpos | Hneg].
    + rewrite (Hrot Hpos).
      rewrite skipn_all2, firstn_all2 by lia. reflexivity.
    + unfold Utils.getWeekdaysMin. rewrite Z.gtb_ltb.
      destruct (Z.ltb_spec 0 firstDayOfWeek); [lia | reflexivity].
Qed.

(** ** Bounds and disabled cells *)

Section Bounds.

Import ES.

Lemma instant_falsy (bound : Utils.DateType) :
  Utils.truthy bound = false -> instant bound = None.
Proof. unfold instant. now intros ->. Qed.

Lemma before_bound_mono (s t : Z) (bound : Utils.DateType) :
  s <= t -> before_bound t bound = true -> before_bound s bound = true.
Proof.
  unfold before_bound. destruct (instant bound); [ | discriminate].
  rewrite !Z.ltb_lt. lia.
Qed.

Lemma after_bound_mono (s t : Z) (bound : Utils.DateType) :
  s <= t -> after_bound s bound = true -> after_bound t bound = true.
Proof.
  unfold after_bound. destruct (instant bound); [ | discriminate].
  rewrite !Z.ltb_lt. lia.
Qed.

(** A cell with its date, its flag and the number of its day. *)
Lemma grid_cell_flag (datetime : Dayjs.t) (full : bool)
    (minimumDate maximumDate : Utils.DateType) (firstDayOfWeek : Z)
    (i : nat) (c : Utils.IDayObject) :
  nth_error
    (Utils.getMonthDays datetime full minimumDate maximumDate firstDayOfWeek) i
  = Some (Some c) ->
  exists u : Dayjs.t,
    Utils.disabled c
    = before_bound (Dayjs.valueOf u) minimumDate
      || after_bound (Dayjs.valueOf u) maximumDate
    /\ TimeWithinDay (Dayjs.valueOf u) = TimeWithinDay (Dayjs.valueOf datetime)
    /\ Day (Dayjs.valueOf u)
       = Day (Dayjs.valueOf (Dayjs.set_date datetime 1))
         - leadOffset datetime firstDayOfWeek + Z.of_nat i
         + region_shift (year_month datetime)
             (region_of (Z.to_nat (leadOffset datetime firstDayOfWeek))
                (Z.to_nat (Dayjs.daysInMonth datetime)) i).
Proof.
  intros Hnth.
  destruct (grid_cell_day_shift _ _ _ _ _ _ _ Hnth)
    as (u & cur & Hgen & Htime & Hday).
  exists u. rewrite Hgen at 1. rewrite generateDayObject_disabled.
  repeat split; assumption.
Qed.

End Bounds.

(** X15.  A falsy bound constrains nothing: when [minimumDate] and
    [maximumDate] are both falsy (absent, or the number 0), no cell of
    the grid is disabled. *)
Theorem X15_no_bound_no_disabled_cell
    (datetime : Dayjs.t) (displayFullDays : bool)
    (minimumDate maximumDate : Utils.DateType) (firstDayOfWeek : Z)
    (i : nat) (c : Utils.IDayObject) :
  Utils.truthy minimumDate = false -> Utils.truthy maximumDate = false ->
  nth_error (Utils.getMonthDays datetime displayFullDays minimumDate
               maximumDate firstDayOfWeek) i = Some (Some c) ->
  Utils.disabled c = false.
Proof.
  intros Hmin Hmax Hnth.
  destruct (grid_cell_flag _ _ _ _ _ _ _ Hnth) as (u & Hdis & _).
  rewrite Hdis. unfold before_bound, after_bound.
  now rewrite (instant_falsy _ Hmin), (instant_falsy _ Hmax).
Qed.

(** X15 at work: the bounds 0 and absent, for a month of 1960. *)
Lemma X15_no_bound_no_disabled_cell_witness :
  Utils.disabled
    {| Utils.text := "1"; Utils.day := 1; Utils.date := "1960-05-01";
       Utils.disabled := false; Utils.isCurrentMonth := true |} = false.
Proof.
  apply (X15_no_bound_no_disabled_cell (civil 1960 5 20 9 0) false
           (Utils.DT_number 0) Utils.DT_absent 0 0);
    vm_compute; reflexivity.
Defined.

(** X16.  The cells that can be selected form one run: if two cells of a
    grid are not disabled, no cell between them is disabled, whatever the
    bounds. *)
Theorem X16_enabled_cells_are_contiguous
    (datetime : Dayjs.t) (displayFullDays : bool)
    (minimumDate maximumDate : Utils.DateType) (firstDayOfWeek : Z)
    (i j k : nat) (ci cj ck : Utils.IDayObject) :
  let grid := Utils.getMonthDays datetime displayFullDays minimumDate
                maximumDate firstDayOfWeek in
  (i <= j <= k)%nat ->
  nth_error grid i = Some (Some ci) ->
  nth_error grid j = Some (Some cj) ->
  nth_error grid k = Some (Some ck) ->
  Utils.disabled ci = false -> Utils.disabled ck = false ->
  Utils.disabled cj = false.
Proof.
  cbv zeta. intros Hijk Hi Hj Hk Hci Hck.
  destruct (grid_cell_flag _ _ _ _ _ _ _ Hi) as (ui & Hdi & Hti & Hni).
  destruct (grid_cell_flag _ _ _ _ _ _ _ Hj) as (uj & Hdj & Htj & Hnj).
  destruct (grid_cell_flag _ _ _ _ _ _ _ Hk) as (uk & Hdk & Htk & Hnk).
  pose proof (region_shift_mono (year_month datetime)
                (Z.to_nat (leadOffset datetime firstDayOfWeek))
                (Z.to_nat (Dayjs.daysInMonth datetime)) i j
                (proj1 Hijk)) as Hsij.
  pose proof (region_shift_mono (year_month datetime)
                (Z.to_nat (leadOffset datetime firstDayOfWeek))
                (Z.to_nat (Dayjs.daysInMonth datetime)) j k
                (proj2 Hijk)) as Hsjk.
  assert (Hij : Dayjs.valueOf ui <= Dayjs.valueOf uj)
    by (apply same_time_le; [congruence | lia]).
  assert (Hjk : Dayjs.valueOf uj <= Dayjs.valueOf uk)
    by (apply same_time_le; [congruence | lia]).
  rewrite Hdi in Hci. rewrite Hdk in Hck. rewrite Hdj.
  apply orb_false_iff in Hci. apply orb_false_iff in Hck.
  destruct Hci as [Hbi _]. destruct Hck as [_ Hak].
  apply orb_false_iff. split.
  - destruct (before_bound (Dayjs.valueOf uj) minimumDate) eqn:E;
      [ | reflexivity].
    rewrite (before_bound_mono _ _ _ Hij E) in Hbi. discriminate Hbi.
  - destruct (after_bound (Dayjs.valueOf uj) maximumDate) eqn:E;
      [ | reflexivity].
    rewrite (after_bound_mono _ _ _ Hjk E) in Hak. discriminate Hak.
Qed.

(** X16 at work: March 2024 between the bounds 2024-03-10 and 2024-03-20:
    the cells of the 10th, the 15th and the 20th, at positions 14, 19 and
    24. *)
Lemma X16_enabled_cells_are_contiguous_witness :
  Utils.disabled
    {| Utils.text := "15"; Utils.day := 15; Utils.date := "2024-03-15";
       Utils.disabled := false; Utils.isCurrentMonth := true |} = false.
Proof.
  apply (X16_enabled_cells_are_contiguous (civil 2024 3 1 0 0) true
           (Utils.DT_date (civil 2024 3 10 0 0))
           (Utils.DT_date (civil 2024 3 20 0 0)) 0 14 19 24
           {| Utils.text := "10"; Utils.day := 10; Utils.date := "2024-03-10";
              Utils.disabled := false; Utils.isCurrentMonth := true |}
           _
           {| Utils.text := "20"; Utils.day := 20; Utils.date := "2024-03-20";
              Utils.disabled := false; Utils.isCurrentMonth := true |});
    try (vm_compute; reflexivity).
  lia.
Defined.

(** X17.  Bounds that cross disable everything: when both bounds are in
    force and [maximumDate] is strictly before [minimumDate], every cell
    of the grid is disabled. *)
Theorem X17_crossed_bounds_disable_all
    (datetime : Dayjs.t) (displayFullDays : bool)
    (minimumDate maximumDate : Utils.DateType) (firstDayOfWeek : Z)
    (lower upper : Z) (i : nat) (c : Utils.IDayObject) :
  instant minimumDate = Some lower -> instant maximumDate = Some upper ->
  upper < lower ->
  nth_error (Utils.getMonthDays datetime displayFullDays minimumDate
               maximumDate firstDayOfWeek) i = Some (Some c) ->
  Utils.disabled c = true.
Proof.
  intros Hmin Hmax Hcross Hnth.
  destruct (grid_cell_flag _ _ _ _ _ _ _ Hnth) as (u & Hdis & _).
  rewrite Hdis. unfold before_bound, after_bound. rewrite Hmin, Hmax.
  apply orb_true_iff.
  destruct (Z.ltb_spec (Dayjs.valueOf u) lower) as [H | H];
    [now left | right]. apply Z.ltb_lt. lia.
Qed.

(** X17 at work: the lower bound 2024-03-20 and the upper bound
    2024-03-10. *)
Lemma X17_crossed_bounds_disable_all_witness :
  Utils.disabled
    {| Utils.text := "15"; Utils.day := 15; Utils.date := "2024-03-15";
       Utils.disabled := true; Utils.isCurrentMonth := true |} = true.
Proof.
  apply (X17_crossed_bounds_disable_all (civil 2024 3 1 0 0) true
           (Utils.DT_date (civil 2024 3 20 0 0))
           (Utils.DT_date (civil 2024 3 10 0 0)) 0
           (Dayjs.valueOf (civil 2024 3 20 0 0))
           (Dayjs.valueOf (civil 2024 3 10 0 0)) 19);
    vm_compute; reflexivity.
Defined.

(** X22.  What decides the flag.  Every cell of a grid is built from a date
    [u]: the calendar date the cell shows, at the time of day of the
    reference.  The cell is disabled exactly when [minimumDate] is in force
    (truthy) and the instant of [u] is strictly before the instant of
    [minimumDate], or [maximumDate] is in force and the instant of [u] is
    strictly after the instant of [maximumDate].  Instants are compared,
    to the millisecond; against an instant at the reference's time of day
    this is the comparison of the calendar dates. *)
Theorem X22_disabled_by_instant
    (datetime : Dayjs.t) (displayFullDays : bool)
    (minimumDate maximumDate : Utils.DateType) (firstDayOfWeek : Z)
    (i : nat) (c : Utils.IDayObject) :
  nth_error (Utils.getMonthDays datetime displayFullDays minimumDate
               maximumDate firstDayOfWeek) i = Some (Some c) ->
  exists u : Dayjs.t,
    c = Utils.generateDayObject (Dayjs.date u) u minimumDate maximumDate
          (Utils.isCurrentMonth c)
    /\ Utils.date c = Dayjs.format u Utils.DATE_FORMAT
    /\ time_of_day u = time_of_day datetime
    /\ (Utils.disabled c = true <->
        (exists b, instant minimumDate = Some b /\ Dayjs.valueOf u < b)
        \/ (exists b, instant maximumDate = Some b /\ b < Dayjs.valueOf u))
    /\ (forall b, ES.TimeWithinDay b = time_of_day datetime ->
          (Dayjs.valueOf u < b <-> ES.Day (Dayjs.valueOf u) < ES.Day b)
          /\ (b < Dayjs.valueOf u <-> ES.Day b < ES.Day (Dayjs.valueOf u))).
Proof.
  intros Hnth.
  destruct (grid_cell_at _ _ _ _ _ _ _ Hnth) as (k & Hk & Hm & Hc).
  destruct (cell_underlying _ _ _ _ _ _ _ Hm Hk (time_of_day_range datetime) Hc)
    as (Hgen & _ & Hdate & Htime).
  match type of Hgen with
  | c = Utils.generateDayObject _ ?u _ _ _ => exists u
  end.
  rewrite Hdate, Hgen.
  rewrite generateDayObject_isCurrentMonth, generateDayObject_date,
    generateDayObject_disabled.
  split; [reflexivity | ].
  split; [reflexivity | ].
  split; [exact Htime | ].
  split.
  - now rewrite orb_true_iff, before_bound_iff, after_bound_iff.
  - intros b Hb. exact (same_time_of_day_compare _ b _ Htime Hb).
Qed.

(** X22 at work: the reference 2024-03-15 08:00, the bounds 2024-03-10
    12:00 and absent, and the cell at position 14 (five leading days, then
    the tenth day of March). *)
Lemma X22_disabled_by_instant_witness :
  exists u : Dayjs.t,
    Dayjs.format u Utils.DATE_FORMAT = "2024-03-10"%string
    /\ time_of_day u = time_of_day (civil 2024 3 15 8 0)
    /\ (true = true <->
        (exists b, instant (Utils.DT_date (civil 2024 3 10 12 0)) = Some b
                   /\ Dayjs.valueOf u < b)
        \/ (exists b, instant Utils.DT_absent = Some b /\ b < Dayjs.valueOf u)).
Proof.
  destruct (X22_disabled_by_instant (civil 2024 3 15 8 0) true
              (Utils.DT_date (civil 2024 3 10 12 0)) Utils.DT_absent 0 14
              {| Utils.text := "10"; Utils.day := 10;
                 Utils.date := "2024-03-10"; Utils.disabled := true;
                 Utils.isCurrentMonth := true |})
    as (u & _ & Hdate & Htime & Hdis & _).
  - vm_compute. reflexivity.
  - exists u. cbn [Utils.date Utils.disabled] in Hdate, Hdis.
    split; [now symmetry | split; [exact Htime | exact Hdis]].
Defined.

(** ** The grid on every reference date *)

(** X19.  A grid is in chronological order, whatever the reference date:
    of two cells of a grid, the one at the later position is built from
    a date on a later day, at the same time of day.  This holds in the
    year 0 too, where a day can be missing between two cells. *)
Theorem X19_grid_is_chronological
    (datetime : Dayjs.t) (displayFullDays : bool)
    (minimumDate maximumDate : Utils.DateType) (firstDayOfWeek : Z)
    (i j : nat) (ci cj : Utils.IDayObject) :
  (i < j)%nat ->
  nth_error (Utils.getMonthDays datetime displayFullDays minimumDate
               maximumDate firstDayOfWeek) i = Some (Some ci) ->
  nth_error (Utils.getMonthDays datetime displayFullDays minimumDate
               maximumDate firstDayOfWeek) j = Some (Some cj) ->
  exists ui uj : Dayjs.t,
    Utils.date ci = Dayjs.format ui Utils.DATE_FORMAT
    /\ Utils.date cj = Dayjs.format uj Utils.DATE_FORMAT
    /\ time_of_day ui = time_of_day uj
    /\ ES.Day (Dayjs.valueOf ui) < ES.Day (Dayjs.valueOf uj)
    /\ Dayjs.valueOf ui < Dayjs.valueOf uj.
Proof.
  intros Hij Hi Hj.
  destruct (grid_cell_day_shift _ _ _ _ _ _ _ Hi)
    as (ui & curi & Hgi & Hti & Hni).
  destruct (grid_cell_day_shift _ _ _ _ _ _ _ Hj)
    as (uj & curj & Hgj & Htj & Hnj).
  pose proof (region_shift_mono (year_month datetime)
                (Z.to_nat (leadOffset datetime firstDayOfWeek))
                (Z.to_nat (Dayjs.daysInMonth datetime)) i j
                (Nat.lt_le_incl _ _ Hij)) as Hs.
  assert (Hday : ES.Day (Dayjs.valueOf ui) < ES.Day (Dayjs.valueOf uj))
    by lia.
  exists ui, uj.
  rewrite Hgi at 1. rewrite Hgj at 1. rewrite !generateDayObject_date.
  split; [reflexivity | ]. split; [reflexivity | ].
  split; [congruence | ]. split; [exact Hday | ].
  apply same_time_compare; [ | exact Hday].
  unfold time_of_day in Hti, Htj. congruence.
Qed.

(** X19 at work: positions 2 and 3 of the full grid of March of the year
    0, the 28th of February and the first of March. *)
Lemma X19_grid_is_chronological_witness :
  exists ui uj : Dayjs.t,
    "0000-02-28"%string = Dayjs.format ui Utils.DATE_FORMAT
    /\ "0000-03-01"%string = Dayjs.format uj Utils.DATE_FORMAT
    /\ Dayjs.valueOf ui < Dayjs.valueOf uj.
Proof.
  destruct (X19_grid_is_chronological (civil 0 3 10 0 0) true
              Utils.DT_absent Utils.DT_absent 0 2 3
              {| Utils.text := "28"; Utils.day := 28;
                 Utils.date := "0000-02-28"; Utils.disabled := false;
                 Utils.isCurrentMonth := false |}
              {| Utils.text := "1"; Utils.day := 1;
                 Utils.date := "0000-03-01"; Utils.disabled := false;
                 Utils.isCurrentMonth := true |})
    as (ui & uj & Hdi & Hdj & _ & _ & Hlt).
  - lia.
  - vm_compute. reflexivity.
  - vm_compute. reflexivity.
  - exists ui, uj. repeat split; assumption.
Defined.

(** X20.  The number of days [getMonthDays] takes for a month,
    [date.daysInMonth()], is the number of days of that month in the
    calendar, from 28 to 31, for every date but those of February of the
    year 0, where it is 28 and the month has 29 days. *)
Theorem X20_days_in_month (d : Dayjs.t) :
  Dayjs.daysInMonth d
  = (if (Dayjs.year d =? 0) && (Dayjs.month d =? 1) then 28
     else days_in (year_month d))
  /\ 28 <= Dayjs.daysInMonth d
  /\ Dayjs.daysInMonth d <= days_in (year_month d)
  /\ days_in (year_month d) <= 31
  /\ days_in (0, 1) = 29.
Proof.
  pose proof (month_length_range (year_month d)) as Hr.
  pose proof (month_length_le (year_month d)) as Hle.
  pose proof (days_in_range (year_month d)) as Hd.
  rewrite daysInMonth_month_length.
  repeat split; try lia; try reflexivity.
  unfold year_month in *.
  destruct (Z.eqb_spec (Dayjs.year d) 0) as [Hy | Hy]; cbn [andb].
  - rewrite Hy, month_length_year_0. reflexivity.
  - now apply month_length_days_in.
Qed.



(** ** The width of formatted dates *)

Section Widths.

Open Scope string_scope.

Lemma length_append (a b : string) :
  String.length (a ++ b) = (String.length a + String.length b)%nat.
Proof. induction a as [ | c a IH]; cbn; [reflexivity | now rewrite IH]. Qed.

Lemma append_assoc_string (a b c : string) : (a ++ b) ++ c = a ++ b ++ c.
Proof. induction a as [ | x a IH]; cbn; [reflexivity | now rewrite IH]. Qed.

(** The decimal text of a positive number has no leading zero, so a
    text of [k] digits is the text of a number of at least [10 ^ (k - 1)]. *)
Lemma to_uint_no_leading_zero (p : positive) (u : uint) :
  Pos.to_uint p <> D0 u.
Proof.
  intros H.
  pose proof (DecimalPos.Unsigned.to_of (Pos.to_uint p)) as Hn.
  rewrite DecimalPos.Unsigned.of_to in Hn. cbn [N.to_uint] in Hn.
  destruct (Decimal.uint_eq_dec (nzhead (Pos.to_uint p)) Nil) as [E | E].
  - apply DecimalFacts.unorm_0 in E. rewrite E in Hn.
    now apply (DecimalPos.Unsigned.to_uint_nonzero p).
  - rewrite (DecimalFacts.unorm_nzhead _ E), H in Hn.
    symmetry in Hn. now apply DecimalFacts.nzhead_nonzero in Hn.
Qed.

Lemma of_uint_acc_lower (d : uint) (acc : positive) :
  (Z.pos acc * 10 ^ Z.of_nat (String.length (NilEmpty.string_of_uint d))
   <= Z.pos (Pos.of_uint_acc d acc))%Z.
Proof.
  revert acc.
  induction d as [ | d IH | d IH | d IH | d IH | d IH | d IH | d IH | d IH
                   | d IH | d IH ]; intros acc;
    [ cbn; lia | .. ];
    cbn [NilEmpty.string_of_uint String.length Pos.of_uint_acc];
    rewrite Nat2Z.inj_succ, Z.pow_succ_r by lia;
    (eapply Z.le_trans; [ | apply IH]);
    assert (0 < 10 ^ Z.of_nat (String.length (NilEmpty.string_of_uint d)))%Z
      by (apply Z.pow_pos_nonneg; lia);
    nia.
Qed.

Lemma of_uint_lower (u : uint) :
  u <> Nil -> (forall w, u <> D0 w) ->
  (10 ^ (Z.of_nat (String.length (NilEmpty.string_of_uint u)) - 1)
   <= Z.of_uint u)%Z.
Proof.
  intros Hnil Hzero.
  destruct u as [ | d | d | d | d | d | d | d | d | d | d ];
    [ congruence | exfalso; now apply (Hzero d) | .. ];
    unfold Z.of_uint;
    cbn [Pos.of_uint Z.of_N NilEmpty.string_of_uint String.length];
    rewrite Nat2Z.inj_succ;
    replace (Z.succ (Z.of_nat (String.length (NilEmpty.string_of_uint d))) - 1)%Z
      with (Z.of_nat (String.length (NilEmpty.string_of_uint d))) by lia;
    (eapply Z.le_trans; [ | apply of_uint_acc_lower]);
    assert (0 < 10 ^ Z.of_nat (String.length (NilEmpty.string_of_uint d)))%Z
      by (apply Z.pow_pos_nonneg; lia);
    nia.
Qed.

Lemma toString_length_four (n : Z) :
  0 <= n <= 9999 -> (String.length (JS.toString n) <= 4)%nat.
Proof.
  intros Hn. destruct n as [ | p | p]; [cbn; lia | | lia].
  rewrite toString_pos.
  destruct (Nat.le_gt_cases
              (String.length (NilEmpty.string_of_uint (Pos.to_uint p))) 4)
    as [H | H]; [exact H | exfalso].
  pose proof (of_uint_lower (Pos.to_uint p)
                (DecimalPos.Unsigned.to_uint_nonnil p)
                (to_uint_no_leading_zero p)) as Hlow.
  rewrite of_uint_to_uint in Hlow.
  assert (10 ^ 4
          <= 10 ^ (Z.of_nat
                     (String.length (NilEmpty.string_of_uint (Pos.to_uint p)))
                   - 1))%Z
    by (apply Z.pow_le_mono_r; lia).
  change (10 ^ 4)%Z with 10000%Z in *. lia.
Qed.

Lemma zeros_length (n : nat) : String.length (JS.zeros n) = n.
Proof. induction n as [ | n IH]; cbn; [reflexivity | now rewrite IH]. Qed.

Lemma padStart_four (n : Z) :
  0 <= n <= 9999 -> String.length (Dayjs.padStart n 4) = 4%nat.
Proof.
  intros Hn. pose proof (toString_length_four n Hn) as Hlen.
  unfold Dayjs.padStart.
  destruct (Nat.leb_spec 4 (String.length (JS.toString n))) as [H | H].
  - lia.
  - rewrite length_append, zeros_length. lia.
Qed.

Lemma format_CALENDAR_FORMAT (d : Dayjs.t) :
  Dayjs.format d Utils.CALENDAR_FORMAT
  = date_text (year_month d) (Dayjs.date d) ++ " "
    ++ Dayjs.padStart (Dayjs.hour d) 2 ++ ":"
    ++ Dayjs.padStart (Dayjs.minute d) 2.
Proof.
  unfold date_text, year_month. cbn [fst snd].
  rewrite !append_assoc_string. reflexivity.
Qed.

Lemma date_text_length (d : Dayjs.t) :
  0 <= Dayjs.year d <= 9999 ->
  String.length (date_text (year_month d) (Dayjs.date d)) = 10%nat.
Proof.
  intros Hy. unfold date_text, year_month. cbn [fst snd].
  pose proof (month_range d). pose proof (date_range d).
  pose proof (DaysInMonth_range (Dayjs.year d) (Dayjs.month d)).
  rewrite !length_append, padStart_four, !padStart_two by lia.
  reflexivity.
Qed.

Lemma hour_minute_range (d : Dayjs.t) :
  0 <= Dayjs.hour d <= 23 /\ 0 <= Dayjs.minute d <= 59.
Proof.
  unfold Dayjs.hour, Dayjs.minute, ES.HourFromTime, ES.MinFromTime.
  split; Z.div_mod_to_equations; lia.
Qed.

End Widths.

(** X18.  For a date in the years 0 to 9999 the texts have a fixed
    width: [getFormated] gives 16 characters (["YYYY-MM-DD HH:mm"]),
    [getFormatedDate] with the date format gives 10, and the first is
    the second followed by a space, the hour, a colon and the minute,
    each on two digits. *)
Theorem X18_formatted_width (d : Dayjs.t) :
  0 <= Utils.getDateYear d <= 9999 ->
  String.length (Utils.getFormated d) = 16%nat
  /\ String.length (Utils.getFormatedDate d Utils.DATE_FORMAT) = 10%nat
  /\ Utils.getFormated d
     = (Utils.getFormatedDate d Utils.DATE_FORMAT ++ " "
        ++ Dayjs.padStart (Utils.hour (Utils.getParsedDate d)) 2 ++ ":"
        ++ Dayjs.padStart (Utils.minute (Utils.getParsedDate d)) 2)%string
  /\ String.length
       (Dayjs.padStart (Utils.hour (Utils.getParsedDate d)) 2) = 2%nat
  /\ String.length
       (Dayjs.padStart (Utils.minute (Utils.getParsedDate d)) 2) = 2%nat.
Proof.
  unfold Utils.getDateYear. intros Hy.
  destruct (hour_minute_range d) as (Hh & Hmi).
  cbn [Utils.getParsedDate Utils.hour Utils.minute].
  unfold Utils.getFormated, Utils.getFormatedDate.
  rewrite format_CALENDAR_FORMAT, format_DATE_FORMAT.
  rewrite !length_append, date_text_length, !padStart_two by lia.
  repeat split.
Qed.

(** X18 at work: 2024-03-05 08:07. *)
Lemma X18_formatted_width_witness :
  String.length (Utils.getFormated (civil 2024 3 5 8 7)) = 16%nat.
Proof.
  apply (X18_formatted_width (civil 2024 3 5 8 7)).
  vm_compute. split; discriminate.
Defined.
